(** * populate_po.py: the CSV-to-payload transformation of the PO import form

    A shallow embedding of [src/populate_po.py] and the properties of its
    specification.

    Conventions of the embedding.
    - Python [str] is [string]; a character stands for the code point of the
      same number (0..255), and the character classes below ([\d], the
      whitespace of [str.strip], [str.upper]) are Python's, restricted to
      that range.
    - Python [float] is IEEE 754 binary64, taken from the standard library's
      [SpecFloat]; [float(s)] rounds the decimal numeral to nearest, ties to
      even, overflowing to infinity.
    - An exception is a value of [exn]; a computation that may raise returns
      a [result].  Code that talks to the ERP system or prints runs in the
      monad [M], which threads the outside world, the lines printed and the
      requests sent.
    - A [dict] is an association list in insertion order, except for the
      header map, which is only ever looked up and is a [gmap]. *)

From Stdlib Require Import ZArith QArith Qpower Qfield Floats.SpecFloat Strings.String Strings.Ascii List Lia.
From stdpp Require Import gmap strings list pretty.

Set Warnings "-register-all".
Local Open Scope string_scope.

(** ** Python runtime: exceptions *)

Inductive exn :=
  | ValueError (msg : string)
  | JSONDecodeError (msg : string)
  | IndexError (msg : string)
  | KeyError (key_repr : string)
  | TypeError (msg : string)
  | NameError (msg : string)
  | UnboundLocalError (msg : string)
  | StopIteration
  | RequestException (msg : string)
  | HTTPException (status_code : Z) (detail : string).

Inductive result (A : Type) :=
  | Ok (a : A)
  | Raise (e : exn).
Arguments Ok {A} a.
Arguments Raise {A} e.

(** [except ValueError]: the class and its subclasses. *)
Definition is_ValueError (e : exn) : bool :=
  match e with
  | ValueError _ | JSONDecodeError _ => true
  | _ => false
  end.

(** [str(e)], as an f-string formats the exception [e]. *)
Definition str_exn (e : exn) : string :=
  match e with
  | ValueError msg | JSONDecodeError msg | IndexError msg | TypeError msg
  | NameError msg | UnboundLocalError msg | RequestException msg => msg
  | KeyError key_repr => key_repr
  | StopIteration => ""
  | HTTPException status_code detail => detail
  end.

(** ** Python runtime: characters and strings *)

Definition code (c : ascii) : N := N_of_ascii c.

(** [\d] of a [str] pattern. *)
Definition is_digit (c : ascii) : bool := (48 <=? code c)%N && (code c <=? 57)%N.

Definition is_point (c : ascii) : bool := (code c =? 46)%N.

Definition digit_value (c : ascii) : N := (code c - 48)%N.

(** [str.isspace] on one character: TAB..CR, FS..US, space, NEL, NBSP. *)
Definition isspace (c : ascii) : bool :=
  ((9 <=? code c)%N && (code c <=? 13)%N)
  || ((28 <=? code c)%N && (code c <=? 32)%N)
  || (code c =? 133)%N || (code c =? 160)%N.

Definition is_empty (s : string) : bool :=
  match s with
  | EmptyString => true
  | String _ _ => false
  end.

Fixpoint lstrip (s : string) : string :=
  match s with
  | EmptyString => EmptyString
  | String c s' => if isspace c then lstrip s' else s
  end.

Fixpoint rstrip (s : string) : string :=
  match s with
  | EmptyString => EmptyString
  | String c s' =>
      let r := rstrip s' in
      if isspace c && is_empty r then EmptyString else String c r
  end.

(** [s.strip()] *)
Definition strip (s : string) : string := rstrip (lstrip s).

(** [str.upper] on one character.  ASCII and Latin-1 small letters move down
    by 32; sharp s becomes "SS".  The micro sign and y with diaeresis, whose
    capitals lie beyond code point 255, are left as they are. *)
Definition upper_char (c : ascii) : string :=
  let n := code c in
  if ((97 <=? n)%N && (n <=? 122)%N)
     || ((224 <=? n)%N && (n <=? 254)%N && negb (n =? 247)%N)
  then String (ascii_of_N (n - 32)) EmptyString
  else if (n =? 223)%N then "SS"
  else String c EmptyString.

Fixpoint upper (s : string) : string :=
  match s with
  | EmptyString => EmptyString
  | String c s' => upper_char c ++ upper s'
  end.

(** [s.zfill(width)]: zeros go after a leading sign. *)
Definition zfill (s : string) (width : nat) : string :=
  let pad := String.concat "" (repeat "0" (width - String.length s)) in
  match s with
  | String c s' =>
      if (code c =? 43)%N || (code c =? 45)%N then String c (pad ++ s') else pad ++ s
  | EmptyString => pad
  end.

(** [re.sub(r'[^\d.]', '', value)] *)
Fixpoint re_sub_non_numeric (value : string) : string :=
  match value with
  | EmptyString => EmptyString
  | String c s' =>
      if is_digit c || is_point c then String c (re_sub_non_numeric s')
      else re_sub_non_numeric s'
  end.

(** ** Python runtime: float *)

Definition float := spec_float.

(** The binary64 nearest to [p / q], ties to even. *)
Definition binary64_of_ratio (p q : positive) : float :=
  let '(mz, ez, lz) := SFdiv_core_binary 53 1024 (Zpos p) 0 (Zpos q) 0 in
  binary_round_aux 53 1024 false mz ez lz.

Definition pow10 (k : nat) : positive := Nat.iter k (Pos.mul 10) 1%positive.

(** The float of the decimal [m * 10^-k]. *)
Definition float_of_decimal (m : N) (k : nat) : float :=
  match m with
  | N0 => S754_zero false
  | Npos p => binary64_of_ratio p (pow10 k)
  end.

(** [bool(x)] of a float: every float but zero is true. *)
Definition float_bool (x : float) : bool :=
  match x with
  | S754_zero _ => false
  | _ => true
  end.

(** The scan of [float(s)] over a string of digits and points: the digits
    read so far are [m], [k] of them after the point. *)
Fixpoint scan_decimal (s : string) (seen_point : bool) (ndigits : nat)
    (m : N) (k : nat) : option (N * nat) :=
  match s with
  | EmptyString => if Nat.eqb ndigits 0 then None else Some (m, k)
  | String c s' =>
      if is_digit c then
        scan_decimal s' seen_point (S ndigits) (10 * m + digit_value c)
          (if seen_point then S k else k)
      else if is_point c then
        if seen_point then None else scan_decimal s' true ndigits m k
      else None
  end.

(** [float(s)] for [s] over the alphabet that [re_sub_non_numeric] leaves
    (digits and points); signs, exponents, [inf], [nan] and underscores,
    which [float] also reads, never reach it here. *)
Definition py_float (s : string) : result float :=
  match scan_decimal s false 0 0 0 with
  | Some (m, k) => Ok (float_of_decimal m k)
  | None => Raise (ValueError ("could not convert string to float: '" ++ s ++ "'"))
  end.

(** ** [clean_numeric] *)

(** Extract float values from cells with unclean data. *)
Definition clean_numeric (value : string) : result (option float) :=
  if is_empty value then Ok None
  else
    let cleaned := re_sub_non_numeric value in
    (* try: return float(cleaned) if cleaned else None *)
    match (if is_empty cleaned then Ok None
           else match py_float cleaned with
                | Ok x => Ok (Some x)
                | Raise e => Raise e
                end) with
    | Ok r => Ok r
    | Raise e =>
        (* except ValueError: return None *)
        if is_ValueError e then Ok None else Raise e
    end.

(** ** Python runtime: objects *)

(** The objects the program handles: what [response.json()] returns and
    what goes into a request body. *)
Inductive value :=
  | VNone
  | VBool (b : bool)
  | VInt (z : Z)
  | VFloat (x : float)
  | VStr (s : string)
  | VList (l : list value)
  | VDict (d : list (string * value)).

(** [bool(v)] *)
Definition truthy (v : value) : bool :=
  match v with
  | VNone => false
  | VBool b => b
  | VInt z => negb (z =? 0)%Z
  | VFloat x => float_bool x
  | VStr s => negb (is_empty s)
  | VList l => match l with [] => false | _ => true end
  | VDict d => match d with [] => false | _ => true end
  end.

Definition type_name (v : value) : string :=
  match v with
  | VNone => "NoneType"
  | VBool _ => "bool"
  | VInt _ => "int"
  | VFloat _ => "float"
  | VStr _ => "str"
  | VList _ => "list"
  | VDict _ => "dict"
  end.

Fixpoint assoc (key : string) (d : list (string * value)) : option value :=
  match d with
  | [] => None
  | (k, v) :: d' => if String.eqb k key then Some v else assoc key d'
  end.

(** [d[key] = v] on a dict: an existing key keeps its place. *)
Fixpoint setitem (key : string) (v : value) (d : list (string * value))
    : list (string * value) :=
  match d with
  | [] => [(key, v)]
  | (k, v') :: d' =>
      if String.eqb k key then (k, v) :: d' else (k, v') :: setitem key v d'
  end.

(** [v[key]] for a string [key] *)
Definition getitem_str (v : value) (key : string) : result value :=
  match v with
  | VDict d =>
      match assoc key d with
      | Some x => Ok x
      | None => Raise (KeyError ("'" ++ key ++ "'"))
      end
  | VList _ => Raise (TypeError "list indices must be integers or slices, not str")
  | VStr _ => Raise (TypeError "string indices must be integers, not 'str'")
  | _ => Raise (TypeError ("'" ++ type_name v ++ "' object is not subscriptable"))
  end.

(** [v[i]] for an index [i >= 0] *)
Definition getitem_nat (v : value) (i : nat) : result value :=
  match v with
  | VList l =>
      match l !! i with
      | Some x => Ok x
      | None => Raise (IndexError "list index out of range")
      end
  | VStr s =>
      match String.get i s with
      | Some c => Ok (VStr (String c EmptyString))
      | None => Raise (IndexError "string index out of range")
      end
  | VDict _ => Raise (KeyError (pretty i))
  | _ => Raise (TypeError ("'" ++ type_name v ++ "' object is not subscriptable"))
  end.

(** [x != []] *)
Definition ne_empty_list (v : value) : bool :=
  match v with
  | VList [] => false
  | _ => true
  end.

(** [row[i]] on a list of cells *)
Definition row_getitem (row : list string) (i : nat) : result string :=
  match row !! i with
  | Some c => Ok c
  | None => Raise (IndexError "list index out of range")
  end.

(** [headers_map[key]] *)
Definition map_getitem (headers_map : gmap string nat) (key : string) : result nat :=
  match headers_map !! key with
  | Some i => Ok i
  | None => Raise (KeyError ("'" ++ key ++ "'"))
  end.

(** [key in headers_map] *)
Definition map_contains (headers_map : gmap string nat) (key : string) : bool :=
  match headers_map !! key with
  | Some _ => true
  | None => false
  end.

(** [any(line)]: some cell is a non-empty string. *)
Definition any (line : list string) : bool := existsb (fun c => negb (is_empty c)) line.

#[export] Instance result_ret : MRet result := @Ok.
#[export] Instance result_bind : MBind result := fun A B f r =>
  match r with
  | Ok a => f a
  | Raise e => Raise e
  end.

(** ** Name resolution *)

(** The names bound at module level: imports, assignments and [def]s. *)
Definition module_globals : list string :=
  [ "FastAPI"; "File"; "UploadFile"; "Form"; "HTTPException"; "HTMLResponse";
    "io"; "requests"; "HTTPBasicAuth"; "json"; "time"; "urllib"; "os"; "csv"; "re";
    "root_url"; "username"; "password"; "headers"; "auth"; "required_headers";
    "message_1"; "message_2"; "format_json_filter"; "process_po_number";
    "find_po"; "create_inventory_item"; "item_exists"; "clean_numeric";
    "process_line_item"; "create_payload"; "app"; "upload_form"; "upload_file" ].

(** Whether [name] resolves inside a function whose bound locals are
    [locals].  No name looked up this way is a builtin. *)
Definition load_name (locals : list string) (name : string) : result unit :=
  if existsb (String.eqb name) (locals ++ module_globals) then Ok tt
  else Raise (NameError ("name '" ++ name ++ "' is not defined")).

(** ** The ERP boundary *)

(** [format_json_filter]: the text ["filter=" + quote_plus(json.dumps(f))]
    is kept symbolic, as the filter it encodes. *)
Inductive query :=
  | filter_eq (json_filter : value).

Definition format_json_filter (json_filter : value) : query := filter_eq json_filter.

(** The URLs the program builds under [root_url]. *)
Inductive url :=
  | purchasing_orders_query (q : query)
  | purchasing_orders_id (po_id : value)
  | inventory_items
  | inventory_items_query (q : query).

Inductive request :=
  | GET (u : url)
  | POST (u : url) (json : value)
  | PUT (u : url) (json : value).

(** A [requests.Response]; [body_json] is the body decoded as JSON, when it
    is JSON. *)
Record response := {
  status_code : Z;
  text : string;
  body_json : option value
}.

(** [response.json()] *)
Definition json (r : response) : result value :=
  match body_json r with
  | Some v => Ok v
  | None => Raise (JSONDecodeError "Expecting value: line 1 column 1 (char 0)")
  end.

(** What the [requests] library makes of a request: the server's response,
    or an exception of its own. *)
Inductive outcome :=
  | Answered (r : response)
  | Failed (msg : string).

(** An uploaded file: its name and the rows [csv.reader] yields from it. *)
Record UploadFile := {
  filename : option string;
  rows : list (list string)
}.

Definition nl : string := String (ascii_of_nat 10) EmptyString.

(** The module-level set; its iteration order is not fixed by the language,
    so [create_payload] takes the headers in the order the loop meets them. *)
Definition required_headers : list string := ["PART NO"; "ORDER QTY"].

(** Interprets the input as a Spire PO number and creates the request url. *)
Record processed_po := {
  po_number : string;
  po_url : url
}.

Definition process_po_number (no : string) : processed_po :=
  let po_number := zfill no 10 in
  let po_filter := format_json_filter (VDict [("number", VStr po_number)]) in
  {| po_number := no; po_url := purchasing_orders_query po_filter |}.

(** ** The program *)

Section Program.

(** The ERP system and the network in front of it: [send] answers a
    request, or fails, and moves the world on. *)
Variable World : Type.
Variable send : request -> World -> outcome * World.

(** [str(x)] of the object a module-level name is bound to. *)
Variable str_global : string -> string.

(** [round(x, 2)] *)
Variable round2 : float -> float.

(** What a run has done so far. *)
Record state := {
  world : World;
  stdout : list string;
  sent : list request
}.

Definition M (A : Type) : Type := state -> result A * state.

#[export] Instance M_ret : MRet M := fun A a st => (Ok a, st).
#[export] Instance M_bind : MBind M := fun A B f c st =>
  match c st with
  | (Ok a, st') => f a st'
  | (Raise e, st') => (Raise e, st')
  end.

Definition raise {A} (e : exn) : M A := fun st => (Raise e, st).

Definition lift {A} (r : result A) : M A := fun st => (r, st).

(** [try: c  except Exception as e: handler(e)] *)
Definition try_except {A} (c : M A) (handler : exn -> M A) : M A := fun st =>
  match c st with
  | (Ok a, st') => (Ok a, st')
  | (Raise e, st') => handler e st'
  end.

Definition print (line : string) : M unit := fun st =>
  (Ok tt, {| world := world st; stdout := stdout st ++ [line]; sent := sent st |}).

(** [requests.get], [requests.post], [requests.put] *)
Definition requests (r : request) : M response := fun st =>
  let '(answer, w) := send r (world st) in
  (match answer with
   | Answered response => Ok response
   | Failed msg => Raise (RequestException msg)
   end,
   {| world := w; stdout := stdout st; sent := sent st ++ [r] |}).

(** Find the entered PO. *)
Definition find_po (u : url) : M value :=
  response ← requests (GET u);
  if negb (status_code response =? 200)%Z then
    (* print(f"Could not get PO {po_no}, Status code: {response.status_code}") *)
    lift (load_name ["url"; "response"] "po_no");;
    print ("Could not get PO " ++ str_global "po_no" ++ ", Status code: "
           ++ pretty (status_code response));;
    mret (VList [])
  else
    response_json ← lift (json response);
    records ← lift (getitem_str response_json "records");
    if negb (truthy records) then
      print "No results found. Double-check the PO exists and is active";;
      mret (VList [])
    else
      records ← lift (getitem_str response_json "records");
      po ← lift (getitem_nat records 0);
      mret po.

(** [cost / 0.55] *)
Definition div_055 (cost : option float) : result float :=
  match cost with
  | Some x => Ok (SFdiv 53 1024 x (float_of_decimal 55 2))
  | None => Raise (TypeError "unsupported operand type(s) for /: 'NoneType' and 'float'")
  end.

Definition value_of_cost (cost : option float) : value :=
  match cost with
  | Some x => VFloat x
  | None => VNone
  end.

(** Creates item in inventory.  The function takes three positional
    parameters; [extra] are the positional arguments a call passes beyond
    them. *)
Definition create_inventory_item (part_no description : string)
    (cost : option float) (extra : list value) : M (option string) :=
  match extra with
  | _ :: _ =>
      raise (TypeError ("create_inventory_item() takes 3 positional arguments but "
                        ++ pretty (3 + length extra)%nat ++ " were given"))
  | [] =>
      sell ← lift (div_055 cost);
      let payload := VDict [
        ("pricing", VDict [("EA", VDict [("sellPrices", VList [VFloat (round2 sell)])])]);
        ("partNo", VStr part_no);
        ("description", VStr description);
        ("whse", VStr "00");
        ("currentCost", value_of_cost cost) ] in
      response ← requests (POST inventory_items payload);
      if negb (status_code response =? 201)%Z then
        print ("Failed to create inventory item " ++ part_no ++ ", status code: "
               ++ pretty (status_code response) ++ nl ++ text response);;
        mret None
      else mret (Some (text response))
  end.

(** Checks if the given part no exists in warehouse 00. *)
Definition item_exists (part_no : string) : M bool :=
  let part_no_filter :=
    format_json_filter (VDict [("whse", VStr "00"); ("partNo", VStr (upper part_no))]) in
  response ← requests (GET (inventory_items_query part_no_filter));
  if (status_code response =? 200)%Z then
    response_json ← lift (json response);
    records ← lift (getitem_str response_json "records");
    mret (ne_empty_list records)
  else mret false.

(** [row[headers_map[key]]] *)
Definition cell (row : list string) (headers_map : gmap string nat) (key : string)
    : result string :=
  i ← map_getitem headers_map key;
  row_getitem row i.

(** What the [try] block of [process_line_item] leaves behind. *)
Record line_values := {
  lv_part_no : string;
  lv_description : string;
  lv_order_qty : float;
  lv_unit_price : option float
}.

(** The [try] block of [process_line_item].  The first component is the
    local [part_no] when the block has bound it. *)
Definition get_values (row : list string) (headers_map : gmap string nat)
    : option string * result line_values :=
  match cell row headers_map "PART NO" with
  | Raise e => (None, Raise e)
  | Ok c =>
      let part_no := strip c in
      (Some part_no,
       c ← cell row headers_map "ORDER QTY";
       let raw_qty := strip c in
       (* Safe extraction for optional fields *)
       raw_price ←
         (if map_contains headers_map "UNIT PRICE"
          then c ← cell row headers_map "UNIT PRICE"; Ok (Some (strip c))
          else Ok None);
       description ←
         (if map_contains headers_map "DESCRIPTION"
          then c ← cell row headers_map "DESCRIPTION"; Ok (strip c)
          else Ok "");
       (* Clean numeric values *)
       order_qty ← clean_numeric raw_qty;
       unit_price ←
         match raw_price with
         | Some p => if negb (is_empty p) then clean_numeric p else Ok None
         | None => Ok None
         end;
       match order_qty with
       | None => Raise (ValueError ("Invalid quantity: " ++ raw_qty))
       | Some qty =>
           Ok {| lv_part_no := part_no; lv_description := description;
                 lv_order_qty := qty; lv_unit_price := unit_price |}
       end)
  end.

(** [if unit_price:] *)
Definition price_truthy (unit_price : option float) : bool :=
  match unit_price with
  | Some x => float_bool x
  | None => false
  end.

(** Process line item. *)
Definition process_line_item (row : list string) (headers_map : gmap string nat)
    (create_inventory : bool) (vendor_no : value) : M value :=
  match get_values row headers_map with
  | (None, Raise e) =>
      (* the handler formats [part_no], which the block never bound *)
      raise (UnboundLocalError
               "cannot access local variable 'part_no' where it is not associated with a value")
  | (Some part_no, Raise e) =>
      raise (HTTPException 400 ("Error geting values for " ++ part_no ++ ": " ++ str_exn e))
  | (_, Ok v) =>
      let part_no := lv_part_no v in
      let description := lv_description v in
      let unit_price := lv_unit_price v in
      (* Inventory logic *)
      (if create_inventory then
         found ← item_exists part_no;
         if negb found then
           if negb (is_empty description) then
             try_except
               (create_inventory_item part_no description unit_price [vendor_no];;
                mret tt)
               (fun e => raise (HTTPException 400
                  ("Error creating " ++ part_no ++ ": " ++ str_exn e)))
           else
             print ("Warning: " ++ part_no ++ " needs a description to be created!")
         else mret tt
       else mret tt);;
      (* Construct item payload *)
      let item := [
        ("inventory", VDict [("whse", VStr "00"); ("partNo", VStr part_no)]);
        ("orderQty", VFloat (lv_order_qty v)) ] in
      let item :=
        if price_truthy unit_price
        then setitem "unitPrice" (value_of_cost unit_price) item else item in
      let item :=
        if negb (is_empty description)
        then setitem "description" (VStr description) item else item in
      mret (VDict item)
  end.

(** [{header.upper(): i for i, header in enumerate(headers)}], from
    index [i] on. *)
Fixpoint build_headers_map (i : nat) (headers : list string) (m : gmap string nat)
    : gmap string nat :=
  match headers with
  | [] => m
  | header :: rest => build_headers_map (S i) rest (<[upper header := i]> m)
  end.

(** [for header in required_headers: if header not in headers_map: raise] *)
Fixpoint check_required (required_headers : list string) (headers_map : gmap string nat)
    : result unit :=
  match required_headers with
  | [] => Ok tt
  | header :: rest =>
      if negb (map_contains headers_map header)
      then Raise (HTTPException 400 ("Missing " ++ header ++ " column"))
      else check_required rest headers_map
  end.

(** [for line in csv_file: ...], with the items appended so far. *)
Fixpoint payload_loop (lines : list (list string)) (headers_map : gmap string nat)
    (create_inventory : bool) (vendor_no : value) (items : list value)
    : M (list value) :=
  match lines with
  | [] => mret items
  | line :: rest =>
      if negb (any line) then (* Skip empty lines *)
        payload_loop rest headers_map create_inventory vendor_no items
      else
        processed_item ← process_line_item line headers_map create_inventory vendor_no;
        payload_loop rest headers_map create_inventory vendor_no (items ++ [processed_item])
  end.

(** Function to create the payload from the csv file.  [vendor_no] has no
    default: a call that leaves it out passes [None] here. *)
Definition create_payload (csv_file : UploadFile) (required_headers : list string)
    (create_inventory : bool) (vendor_no : option value) : M value :=
  match vendor_no with
  | None =>
      raise (TypeError "create_payload() missing 1 required positional argument: 'vendor_no'")
  | Some vendor_no =>
      match rows csv_file with
      | [] => raise StopIteration (* next(csv_file) *)
      | headers :: lines =>
          let headers_map := build_headers_map 0 headers ∅ in
          lift (check_required required_headers headers_map);;
          items ← payload_loop lines headers_map create_inventory vendor_no [];
          mret (VDict [("items", VList items)])
      end
  end.

(** [bool(file.filename)] and [bool(create_inventory)] *)
Definition filename_truthy (name : option string) : bool :=
  match name with
  | Some s => negb (is_empty s)
  | None => false
  end.

Definition flag_truthy (create_inventory : option bool) : bool :=
  match create_inventory with
  | Some b => b
  | None => false
  end.

(** [POST /upload/] *)
Definition upload_file (po_number : string) (file : UploadFile)
    (create_inventory : option bool) : M value :=
  (* Form validation *)
  if is_empty po_number then raise (HTTPException 422 "PO number is required")
  else if negb (filename_truthy (filename file)) then
    raise (HTTPException 422 "File is required")
  else
    let processed_po_no := process_po_number po_number in
    po ← find_po (po_url processed_po_no);
    if negb (truthy po) then raise (HTTPException 404 "PO not found")
    else
      po_id ← lift (getitem_str po "id");
      let put_url := purchasing_orders_id po_id in
      (* create_payload(file, required_headers, create_inventory) *)
      payload ← create_payload file required_headers (flag_truthy create_inventory) None;
      response ← requests (PUT put_url payload);
      if (status_code response =? 200)%Z then lift (json response)
      else
        raise (HTTPException (status_code response)
                 ("Failed to update PO: " ++ text response)).

End Program.

(** * Reading the results *)

Arguments world {World} s.
Arguments stdout {World} s.
Arguments sent {World} s.
Arguments Build_state {World} world stdout sent.
Arguments M_ret {World}.
Arguments M_bind {World}.
Arguments raise {World A} e st.
Arguments lift {World A} r st.
Arguments try_except {World A} c handler st.
Arguments print {World} line st.
Arguments requests {World} send r st.
Arguments find_po {World} send str_global u st.
Arguments create_inventory_item {World} send round2 part_no description cost extra st.
Arguments item_exists {World} send part_no st.
Arguments process_line_item {World} send round2 row headers_map create_inventory vendor_no st.
Arguments payload_loop {World} send round2 lines headers_map create_inventory vendor_no items st.
Arguments create_payload {World} send round2 csv_file required_headers create_inventory vendor_no st.
Arguments upload_file {World} send str_global round2 po_number file create_inventory st.

(** The words of the specification about strings of digits. *)
Fixpoint count_chars (p : ascii -> bool) (s : string) : nat :=
  match s with
  | EmptyString => 0
  | String c s' => (if p c then 1 else 0) + count_chars p s'
  end.

Fixpoint all_digits (s : string) : bool :=
  match s with
  | EmptyString => true
  | String c s' => is_digit c && all_digits s'
  end.

(** The number a string of digits denotes, by position. *)
Fixpoint decimal_value (s : string) : N :=
  match s with
  | EmptyString => 0
  | String c s' => digit_value c * 10 ^ N.of_nat (String.length s') + decimal_value s'
  end.

(** What is left of [clean_numeric] once the text is stripped. *)
Definition parse_cleaned (t : string) : result (option float) :=
  match scan_decimal t false 0 0 0 with
  | Some (m, k) => Ok (Some (float_of_decimal m k))
  | None => Ok None
  end.

(** The rational a float stands for; infinities and NaN stand for none. *)
Definition float_value (x : float) : option Q :=
  match x with
  | S754_zero _ => Some 0%Q
  | S754_finite s m e => Some ((if s then -1 else 1) * inject_Z (Zpos m) * 2 ^ e)%Q
  | _ => None
  end.

(** The sentence of the specification, word for word: a raw string composed
    only of digits and at most one decimal point. *)
Definition digits_and_at_most_one_point (s : string) : Prop :=
  count_chars (fun c => negb (is_digit c || is_point c)) s = 0%nat
  /\ (count_chars is_point s <= 1)%nat.

(** The decimal [ip.fp] as a rational. *)
Definition decimal_Q (ip fp : string) : Q :=
  Z.of_N (decimal_value (ip ++ fp)) # pow10 (String.length fp).

(** The state after request [r] was answered and the world moved to [w]. *)
Definition after_request {World : Type} (st : state World) (r : request) (w : World)
    : state World :=
  {| world := w; stdout := stdout st; sent := (sent st ++ [r])%list |}.

(** The value [clean_numeric] returns, which is never an exception. *)
Definition cleaned (s : string) : option float :=
  match clean_numeric s with
  | Ok r => r
  | Raise _ => None
  end.

(** [row[headers_map[key]] if key in headers_map else None] *)
Definition optional_cell (row : list string) (headers_map : gmap string nat)
    (key : string) : result (option string) :=
  if map_contains headers_map key
  then c ← cell row headers_map key; Ok (Some c)
  else Ok None.

Definition price_of (raw_price : option string) : option float :=
  match raw_price with
  | Some c => cleaned c
  | None => None
  end.

Definition description_of (raw_description : option string) : string :=
  match raw_description with
  | Some c => strip c
  | None => ""
  end.

(** The item [process_line_item] constructs from the values of a row. *)
Definition line_item (part_no : string) (order_qty : float) (unit_price : option float)
    (description : string) : value :=
  VDict ([("inventory", VDict [("whse", VStr "00"); ("partNo", VStr part_no)]);
          ("orderQty", VFloat order_qty)]
         ++ (if price_truthy unit_price then [("unitPrice", value_of_cost unit_price)] else [])
         ++ (if negb (is_empty description) then [("description", VStr description)] else []))%list.

Definition item_of (v : line_values) : value :=
  line_item (lv_part_no v) (lv_order_qty v) (lv_unit_price v) (lv_description v).

(** The state after a request [r] that the server has answered. *)
Definition after_send {World : Type} (send : request -> World -> outcome * World)
    (r : request) (st : state World) : state World :=
  {| world := snd (send r (world st)); stdout := stdout st;
     sent := (sent st ++ [r])%list |}.

(** The existence check for a part number. *)
Definition exists_request (part_no : string) : request :=
  GET (inventory_items_query
         (format_json_filter (VDict [("whse", VStr "00"); ("partNo", VStr (upper part_no))]))).

Definition warning (part_no : string) : string :=
  "Warning: " ++ part_no ++ " needs a description to be created!".

Definition arity_message : string :=
  "create_inventory_item() takes 3 positional arguments but 4 were given".

Definition missing_column (header : string) : exn :=
  HTTPException 400 ("Missing " ++ header ++ " column").

Definition is_HTTPException (e : exn) : bool :=
  match e with
  | HTTPException _ _ => true
  | _ => false
  end.

Section Batch.
Context {World : Type} (send : request -> World -> outcome * World).
Context (round2 : float -> float).

(** Row processing applied to each row in turn, the items in the order of
    the rows; the first exception ends it. *)
Fixpoint process_all (lines : list (list string)) (headers_map : gmap string nat)
    (create_inventory : bool) (vendor_no : value) : M World (list value) :=
  match lines with
  | [] => mret []
  | line :: rest =>
      item ← process_line_item send round2 line headers_map create_inventory vendor_no;
      items ← process_all rest headers_map create_inventory vendor_no;
      mret (item :: items)
  end.

(** Each item of [items] is what row processing returned for the row at
    its place in [lines], the rows taken in order from state [st] to [st']. *)
Inductive processed (headers_map : gmap string nat) (create_inventory : bool)
    (vendor_no : value)
    : list (list string) -> list value -> state World -> state World -> Prop :=
  | processed_nil st : processed headers_map create_inventory vendor_no [] [] st st
  | processed_cons line rest item items st st1 st' :
      process_line_item send round2 line headers_map create_inventory vendor_no st
      = (Ok item, st1) ->
      processed headers_map create_inventory vendor_no rest items st1 st' ->
      processed headers_map create_inventory vendor_no (line :: rest) (item :: items) st st'.

End Batch.

Arguments process_all {World} send round2 lines headers_map create_inventory vendor_no st.
Arguments processed {World} send round2 headers_map create_inventory vendor_no _ _ _ _.

(** An ERP system that answers every request with status 200 and the given
    records. *)
Definition answer_records (records : list value) (r : request) (w : unit)
    : outcome * unit :=
  (Answered {| status_code := 200; text := "";
               body_json := Some (VDict [("records", VList records)]) |}, w).

(** One that answers every request with the given status and no JSON. *)
Definition answer_status (status : Z) (r : request) (w : unit) : outcome * unit :=
  (Answered {| status_code := status; text := ""; body_json := None |}, w).

Definition initial : state unit := {| world := tt; stdout := []; sent := [] |}.

(** A float that is a zero, a finite number or an infinity with the sign
    bit clear. *)
Definition nonnegative (x : float) : bool :=
  match x with
  | S754_zero false | S754_infinity false | S754_finite false _ _ => true
  | _ => false
  end.

(** ** The text of a filter

    [format_json_filter] returns the text [filter=] followed by
    [urllib.parse.quote_plus(json.dumps(json_filter))].  The program passes
    it dicts whose keys and values are strings; for these the text is
    written out here, [format_json_filter_text d] being the text of the
    filter [format_json_filter (str_dict d)]. *)

Definition str_dict (d : list (string * string)) : value :=
  VDict (List.map (fun kv => (fst kv, VStr (snd kv))) d).

Definition quote_mark : ascii := ascii_of_nat 34.

Definition backslash : ascii := ascii_of_nat 92.

(** One hexadecimal digit of [n < 16], in capital or in small letters. *)
Definition hex_digit (capital : bool) (n : N) : ascii :=
  if (n <? 10)%N then ascii_of_N (48 + n)
  else ascii_of_N ((if capital then 55 else 87) + n).

(** [json.dumps] on one character of a string, with [ensure_ascii]: the
    quotation mark, the backslash and the characters outside space..tilde
    are escaped, the latter as [\u00xx] unless they have a short escape. *)
Definition json_escape (c : ascii) : string :=
  let n := code c in
  if ((n =? 34) || (n =? 92))%N then String backslash (String c EmptyString)
  else if (n =? 8)%N then String backslash "b"
  else if (n =? 12)%N then String backslash "f"
  else if (n =? 10)%N then String backslash "n"
  else if (n =? 13)%N then String backslash "r"
  else if (n =? 9)%N then String backslash "t"
  else if ((32 <=? n) && (n <=? 126))%N then String c EmptyString
  else String backslash
         ("u00" ++ String (hex_digit false (n / 16))
                     (String (hex_digit false (n mod 16)) EmptyString)).

Fixpoint json_escape_string (s : string) : string :=
  match s with
  | EmptyString => EmptyString
  | String c s' => json_escape c ++ json_escape_string s'
  end.

(** [json.dumps(s)] for a string [s] *)
Definition json_dumps_str (s : string) : string :=
  String quote_mark (json_escape_string s ++ String quote_mark EmptyString).

Fixpoint json_dumps_items (d : list (string * string)) : string :=
  match d with
  | [] => EmptyString
  | (k, v) :: rest =>
      json_dumps_str k ++ ": " ++ json_dumps_str v
      ++ match rest with
         | [] => EmptyString
         | _ :: _ => ", " ++ json_dumps_items rest
         end
  end.

(** [json.dumps(d)] for a dict [d] of strings *)
Definition json_dumps_dict (d : list (string * string)) : string :=
  "{" ++ json_dumps_items d ++ "}".

(** The characters [quote_plus] leaves as they are. *)
Definition is_unreserved (c : ascii) : bool :=
  let n := code c in
  ((65 <=? n) && (n <=? 90))%N || ((97 <=? n) && (n <=? 122))%N
  || ((48 <=? n) && (n <=? 57))%N
  || (n =? 95)%N || (n =? 46)%N || (n =? 45)%N || (n =? 126)%N.

(** [%XX] for the byte [n] *)
Definition percent (n : N) : string :=
  String "%" (String (hex_digit true (n / 16))
                (String (hex_digit true (n mod 16)) EmptyString)).

(** [quote_plus] on one character: a space becomes a plus sign, and any
    other reserved character the escapes of its UTF-8 bytes. *)
Definition quote_plus_char (c : ascii) : string :=
  let n := code c in
  if is_unreserved c then String c EmptyString
  else if (n =? 32)%N then "+"
  else if (n <? 128)%N then percent n
  else percent (192 + n / 64) ++ percent (128 + n mod 64).

Fixpoint quote_plus (s : string) : string :=
  match s with
  | EmptyString => EmptyString
  | String c s' => quote_plus_char c ++ quote_plus s'
  end.

Definition format_json_filter_text (d : list (string * string)) : string :=
  "filter=" ++ quote_plus (json_dumps_dict d).

(** The characters of a query string that need no escape, with the equals
    sign, the plus sign and the percent sign of the escapes. *)
Definition query_safe (c : ascii) : bool :=
  is_unreserved c || (code c =? 61)%N || (code c =? 43)%N || (code c =? 37)%N.

Fixpoint all_chars (p : ascii -> bool) (s : string) : bool :=
  match s with
  | EmptyString => true
  | String c s' => p c && all_chars p s'
  end.

(** Readers for these texts, for the proofs that a text is the text of one
    filter only.  [hex_value] is the value of a hexadecimal digit. *)
Definition hex_value (c : ascii) : N :=
  let n := code c in
  if (n <=? 57)%N then (n - 48)%N else if (n <=? 70)%N then (n - 55)%N else (n - 87)%N.

(** The string whose [quote_plus] is [s], if there is one. *)
Fixpoint read_quoted (s : string) : option string :=
  match s with
  | EmptyString => Some EmptyString
  | String c rest =>
      if (code c =? 43)%N then option_map (String " ") (read_quoted rest)
      else if (code c =? 37)%N then
        match rest with
        | String h (String l rest') =>
            let b := (16 * hex_value h + hex_value l)%N in
            if (b <? 128)%N then option_map (String (ascii_of_N b)) (read_quoted rest')
            else
              match rest' with
              | String _ (String h2 (String l2 rest'')) =>
                  let b2 := (16 * hex_value h2 + hex_value l2)%N in
                  option_map (String (ascii_of_N ((b - 192) * 64 + (b2 - 128))))
                    (read_quoted rest'')
              | _ => None
              end
        | _ => None
        end
      else option_map (String c) (read_quoted rest)
  end.

Definition push (c : ascii) (o : option (string * string)) : option (string * string) :=
  option_map (fun p => (String c (fst p), snd p)) o.

(** The string of a JSON string literal, read from after its opening
    quotation mark, and the text that follows its closing one. *)
Fixpoint read_json_string (s : string) : option (string * string) :=
  match s with
  | EmptyString => None
  | String c rest =>
      if (code c =? 34)%N then Some (EmptyString, rest)
      else if (code c =? 92)%N then
        match rest with
        | String e rest' =>
            let n := code e in
            if (n =? 117)%N then
              match rest' with
              | String _ (String _ (String h (String l rest''))) =>
                  push (ascii_of_N (16 * hex_value h + hex_value l))
                    (read_json_string rest'')
              | _ => None
              end
            else
              push (if (n =? 98)%N then ascii_of_N 8
                    else if (n =? 102)%N then ascii_of_N 12
                    else if (n =? 110)%N then ascii_of_N 10
                    else if (n =? 114)%N then ascii_of_N 13
                    else if (n =? 116)%N then ascii_of_N 9
                    else e)
                (read_json_string rest')
        | EmptyString => None
        end
      else push c (read_json_string rest)
  end.

(** * Properties *)

(** ** The numeric cleaner *)

Lemma re_sub_non_numeric_app (a b : string) :
  re_sub_non_numeric (a ++ b) = re_sub_non_numeric a ++ re_sub_non_numeric b.
Proof.
  induction a as [|c a IH]; simpl; [reflexivity|].
  destruct (is_digit c || is_point c); simpl; now rewrite IH.
Qed.

Lemma clean_numeric_parse (s : string) :
  clean_numeric s = parse_cleaned (re_sub_non_numeric s).
Proof.
  unfold clean_numeric, parse_cleaned, py_float.
  destruct s as [|c s]; [reflexivity|].
  cbn [is_empty].
  destruct (re_sub_non_numeric (String c s)) as [|d t] eqn:E; [reflexivity|].
  cbn [is_empty].
  destruct (scan_decimal (String d t) false 0 0 0) as [[m k]|]; reflexivity.
Qed.

Lemma count_chars_re_sub (p : ascii -> bool) (s : string) :
  (forall c, p c = true -> is_digit c || is_point c = true) ->
  count_chars p (re_sub_non_numeric s) = count_chars p s.
Proof.
  intros Hp. induction s as [|c s IH]; simpl; [reflexivity|].
  destruct (is_digit c || is_point c) eqn:E; simpl; rewrite IH; [reflexivity|].
  destruct (p c) eqn:Ep; [|reflexivity].
  apply Hp in Ep. congruence.
Qed.

Lemma digit_not_point (c : ascii) : is_digit c = true -> is_point c = false.
Proof.
  unfold is_digit, is_point. intros H.
  apply andb_true_iff in H as [H1 H2].
  apply N.leb_le in H1. apply N.eqb_neq. lia.
Qed.

(** The scan fails exactly when it has met no digit or a second point. *)
Lemma scan_decimal_None (t : string) :
  forall seen n m k,
    scan_decimal (re_sub_non_numeric t) seen n m k = None <->
    (n + count_chars is_digit t = 0)%nat
    \/ (2 <= (if seen then 1 else 0) + count_chars is_point t)%nat.
Proof.
  induction t as [|c t IH]; intros seen n m k; simpl.
  - destruct n; simpl; split.
    + intros _. left. reflexivity.
    + reflexivity.
    + discriminate.
    + intros [H|H]; [lia|destruct seen; lia].
  - destruct (is_digit c) eqn:Ed; simpl.
    + rewrite Ed, IH, (digit_not_point c Ed). destruct seen; simpl; lia.
    + destruct (is_point c) eqn:Ep; simpl; [|rewrite IH; destruct seen; simpl; lia].
      rewrite Ed, Ep. destruct seen.
      * split; [intros _; right; lia|reflexivity].
      * rewrite IH. simpl. lia.
Qed.

Lemma all_digits_re_sub (s : string) :
  all_digits s = true -> re_sub_non_numeric s = s.
Proof.
  induction s as [|c s IH]; simpl; [reflexivity|].
  intros H. apply andb_true_iff in H as [Hc Hs].
  rewrite Hc. simpl. now rewrite IH.
Qed.

Lemma decimal_value_app (a b : string) :
  decimal_value (a ++ b)
  = (decimal_value a * 10 ^ N.of_nat (String.length b) + decimal_value b)%N.
Proof.
  induction a as [|c a IH]; simpl; [reflexivity|].
  rewrite IH.
  assert (E : String.length (a ++ b) = (String.length a + String.length b)%nat).
  { clear. induction a; simpl; [reflexivity|now f_equal]. }
  rewrite E, Nat2N.inj_add, N.pow_add_r. lia.
Qed.

(** Scanning a run of digits shifts the digits read so far and adds the
    run's value. *)
Lemma scan_decimal_digits (ds : string) :
  all_digits ds = true ->
  forall rest seen n m k,
    scan_decimal (ds ++ rest) seen n m k
    = scan_decimal rest seen (n + String.length ds)
        (m * 10 ^ N.of_nat (String.length ds) + decimal_value ds)
        (if seen then k + String.length ds else k).
Proof.
  induction ds as [|c ds IH]; intros Hd rest seen n m k.
  - simpl. f_equal; [lia|lia|destruct seen; lia].
  - simpl in Hd. apply andb_true_iff in Hd as [Hc Hds].
    change (String c ds ++ rest) with (String c (ds ++ rest)).
    cbn [scan_decimal]. rewrite Hc.
    rewrite (IH Hds). cbn [String.length decimal_value].
    f_equal.
    + lia.
    + rewrite Nat2N.inj_succ, N.pow_succ_r'. lia.
    + destruct seen; lia.
Qed.

Lemma append_empty_r (s : string) : s ++ "" = s.
Proof.
  induction s as [|c s IH]; [reflexivity|].
  change (String c (s ++ "") = String c s). now f_equal.
Qed.

Lemma length_append (a b : string) :
  String.length (a ++ b) = (String.length a + String.length b)%nat.
Proof.
  induction a as [|c a IH]; [reflexivity|].
  change (S (String.length (a ++ b)) = S (String.length a + String.length b)).
  now f_equal.
Qed.

Lemma parse_cleaned_digits (ip fp : string) :
  all_digits ip = true -> all_digits fp = true ->
  (0 < String.length ip + String.length fp)%nat ->
  parse_cleaned (ip ++ "." ++ fp)
  = Ok (Some (float_of_decimal (decimal_value (ip ++ fp)) (String.length fp))).
Proof.
  intros Hip Hfp Hlen. unfold parse_cleaned.
  rewrite (scan_decimal_digits ip Hip).
  change ("." ++ fp) with (String "." fp). cbn [scan_decimal].
  change (is_digit ".") with false. change (is_point ".") with true. cbv iota.
  rewrite <- (append_empty_r fp) at 1.
  rewrite (scan_decimal_digits fp Hfp). cbn [scan_decimal].
  destruct (Nat.eqb_spec (0 + String.length ip + String.length fp) 0) as [E|_]; [lia|].
  rewrite decimal_value_app, N.mul_0_l, N.add_0_l, Nat.add_0_l. reflexivity.
Qed.

Lemma parse_cleaned_integer (ip : string) :
  all_digits ip = true -> (0 < String.length ip)%nat ->
  parse_cleaned ip = Ok (Some (float_of_decimal (decimal_value ip) 0)).
Proof.
  intros Hip Hlen. unfold parse_cleaned.
  rewrite <- (append_empty_r ip) at 1.
  rewrite (scan_decimal_digits ip Hip). cbn [scan_decimal].
  destruct (Nat.eqb_spec (0 + String.length ip) 0) as [E|_]; [lia|].
  rewrite N.mul_0_l, N.add_0_l. reflexivity.
Qed.

Lemma all_digits_app (a b : string) :
  all_digits (a ++ b) = all_digits a && all_digits b.
Proof.
  induction a as [|c a IH]; simpl; [reflexivity|].
  now rewrite IH, andb_assoc.
Qed.

(** ** Exactness of the float of a ratio *)

Section FloatExact.
Local Open Scope Z_scope.

Lemma digits2_pos_size (p : positive) : digits2_pos p = Pos.size p.
Proof. induction p; simpl; congruence. Qed.

Lemma Zdigits2_log2 (p : positive) : Zdigits2 (Zpos p) = Z.succ (Z.log2 (Zpos p)).
Proof.
  unfold Zdigits2. rewrite digits2_pos_size.
  destruct p; simpl; lia.
Qed.

Lemma Zdigits2_bounds (p : positive) :
  (2 ^ (Zdigits2 (Zpos p) - 1) <= Zpos p < 2 ^ Zdigits2 (Zpos p))%Z.
Proof.
  rewrite Zdigits2_log2.
  replace (Z.succ (Z.log2 (Zpos p)) - 1)%Z with (Z.log2 (Zpos p)) by lia.
  apply Z.log2_spec. lia.
Qed.

Lemma Zdigits2_unique (a d : Z) :
  (0 < a)%Z -> (2 ^ (d - 1) <= a < 2 ^ d)%Z -> Zdigits2 a = d.
Proof.
  intros Ha H. destruct a as [|p|p]; try lia.
  rewrite Zdigits2_log2.
  assert (Hd : (0 < d)%Z).
  { destruct (Z.lt_ge_cases 0 d) as [|Hd]; [assumption|].
    destruct (Z.eq_dec d 0) as [->|Hne]; [simpl in H; lia|].
    rewrite (Z.pow_neg_r 2 d) in H by lia. lia. }
  rewrite (Z.log2_unique (Zpos p) (d - 1)); [lia|lia|].
  now replace (Z.succ (d - 1)) with d by lia.
Qed.

Lemma Zdigits2_mul_pow2 (p : positive) (k : Z) :
  (0 <= k)%Z -> Zdigits2 (Zpos p * 2 ^ k) = (Zdigits2 (Zpos p) + k)%Z.
Proof.
  intros Hk. pose proof (Zdigits2_bounds p) as [Hlo Hhi].
  assert (Hd : (1 <= Zdigits2 (Zpos p))%Z) by (rewrite Zdigits2_log2; pose proof (Z.log2_nonneg (Zpos p)); lia).
  assert (Hp : (0 < 2 ^ k)%Z) by (apply Z.pow_pos_nonneg; lia).
  apply Zdigits2_unique.
  - lia.
  - replace (Zdigits2 (Zpos p) + k - 1)%Z with ((Zdigits2 (Zpos p) - 1) + k)%Z by lia.
    rewrite !Z.pow_add_r by lia. split.
    + apply Z.mul_le_mono_nonneg_r; lia.
    + apply Z.mul_lt_mono_pos_r; lia.
Qed.

Lemma iter_pos_iter {A} (f : A -> A) (n : positive) (x : A) :
  SpecFloat.iter_pos f n x = Pos.iter f x n.
Proof.
  revert x. induction n as [n IH|n IH|]; intros x; simpl.
  - rewrite !IH. rewrite <- !Pos.iter_swap. reflexivity.
  - rewrite !IH. reflexivity.
  - reflexivity.
Qed.

Lemma shr_1_even (a : Z) :
  (0 <= a)%Z ->
  shr_1 {| shr_m := 2 * a; shr_r := false; shr_s := false |}
  = {| shr_m := a; shr_r := false; shr_s := false |}.
Proof. intros Ha. destruct a; try lia; reflexivity. Qed.

Lemma iter_shr_1_exact (n : positive) :
  forall a, (0 <= a)%Z ->
    SpecFloat.iter_pos shr_1 n {| shr_m := a * 2 ^ Zpos n; shr_r := false; shr_s := false |}
    = {| shr_m := a; shr_r := false; shr_s := false |}.
Proof.
  intros a Ha. rewrite iter_pos_iter. revert a Ha.
  induction n as [|n IH] using Pos.peano_ind; intros a Ha.
  - simpl. replace (a * 2 ^ 1)%Z with (2 * a)%Z by lia. now apply shr_1_even.
  - rewrite Pos.iter_succ.
    replace (a * 2 ^ Zpos (Pos.succ n))%Z with ((2 * a) * 2 ^ Zpos n)%Z.
    + rewrite IH by lia. now apply shr_1_even.
    + rewrite Pos2Z.inj_succ, Z.pow_succ_r by lia. lia.
Qed.

Lemma fexp_binary64 (x : Z) : fexp 53 1024 x = Z.max (x - 53) (-1074).
Proof. reflexivity. Qed.

(** Shifting to the canonical exponent loses nothing when the bits shifted
    out are zero. *)
Lemma shr_fexp_exact (m ex a x : Z) :
  (0 <= a)%Z ->
  x = Z.max (fexp 53 1024 (Zdigits2 m + ex)) ex ->
  m = (a * 2 ^ (x - ex))%Z ->
  shr_fexp 53 1024 m ex loc_Exact
  = ({| shr_m := a; shr_r := false; shr_s := false |}, x).
Proof.
  intros Ha Hx Hm. unfold shr_fexp, shr. cbn [shr_record_of_loc].
  destruct (fexp 53 1024 (Zdigits2 m + ex) - ex)%Z as [|n|n] eqn:En.
  - assert (E : x - ex = 0) by lia. rewrite E in Hm. simpl in Hm.
    f_equal; [f_equal|]; lia.
  - assert (x - ex = Zpos n)%Z as E by lia.
    rewrite E in Hm. rewrite Hm, iter_shr_1_exact by assumption.
    f_equal. lia.
  - assert (E : x - ex = 0) by lia. rewrite E in Hm. simpl in Hm.
    f_equal; [f_equal|]; lia.
Qed.

Lemma binary_round_aux_exact (M : positive) (e e' : Z) :
  Zpos M < 2 ^ 53 -> -1074 <= e <= 971 -> e' <= e ->
  exists m x,
    binary_round_aux 53 1024 false (Zpos M * 2 ^ (e - e')) e' loc_Exact
    = S754_finite false m x
    /\ -1074 <= x <= e /\ Zpos m = Zpos M * 2 ^ (e - x).
Proof.
  intros HM He He'.
  pose proof (Zdigits2_bounds M) as [Hlo _].
  assert (HdM : Zdigits2 (Zpos M) <= 53).
  { assert (2 ^ (Zdigits2 (Zpos M) - 1) < 2 ^ 53) as H by lia.
    apply Z.pow_lt_mono_r_iff in H; lia. }
  set (f := fexp 53 1024 (Zdigits2 (Zpos M) + e)).
  assert (Hf : -1074 <= f <= e) by (unfold f; rewrite fexp_binary64; lia).
  set (x := Z.max f e').
  assert (Hx : -1074 <= x <= e) by lia.
  set (a := Zpos M * 2 ^ (e - x)).
  assert (Ha : 0 < a) by (apply Z.mul_pos_pos; [lia|apply Z.pow_pos_nonneg; lia]).
  assert (Hda : Zdigits2 a = Zdigits2 (Zpos M) + (e - x))
    by (apply Zdigits2_mul_pow2; lia).
  unfold binary_round_aux.
  rewrite (shr_fexp_exact (Zpos M * 2 ^ (e - e')) e' a x).
  - cbn [shr_m loc_of_shr_record round_nearest_even].
    rewrite (shr_fexp_exact a x a x).
    + cbn [shr_m]. destruct a as [|m|m] eqn:Ea; try lia.
      exists m, x. split; [|split; [lia|now rewrite <- Ea]].
      replace (x <=? 1024 - 53) with true; [reflexivity|].
      symmetry. apply Z.leb_le. lia.
    + lia.
    + rewrite Hda. replace (Zdigits2 (Zpos M) + (e - x) + x) with (Zdigits2 (Zpos M) + e) by lia.
      fold f. lia.
    + rewrite Z.sub_diag. simpl. lia.
  - lia.
  - rewrite Zdigits2_mul_pow2 by lia.
    replace (Zdigits2 (Zpos M) + (e - e') + e') with (Zdigits2 (Zpos M) + e) by lia.
    reflexivity.
  - unfold a. rewrite <- Z.mul_assoc, <- Z.pow_add_r by lia.
    f_equal. f_equal. lia.
Qed.

Lemma new_location_zero (n : Z) : new_location n 0 = loc_Exact.
Proof.
  unfold new_location, new_location_even, new_location_odd.
  destruct (Z.even n); reflexivity.
Qed.

(** A ratio that is a binary64 number is its own float. *)
Lemma binary64_of_ratio_exact (p q M : positive) (e : Z) :
  Zpos M < 2 ^ 53 -> -1074 <= e <= 971 ->
  Zpos p * 2 ^ 1074 = Zpos M * 2 ^ (e + 1074) * Zpos q ->
  exists m x,
    binary64_of_ratio p q = S754_finite false m x
    /\ -1074 <= x <= e /\ Zpos m = Zpos M * 2 ^ (e - x).
Proof.
  intros HM He Hpq.
  pose proof (Zdigits2_bounds p) as [Hplo _].
  pose proof (Zdigits2_bounds q) as [_ Hqhi].
  set (d1 := Zdigits2 (Zpos p)) in *. set (d2 := Zdigits2 (Zpos q)) in *.
  assert (Hd1 : 1 <= d1)
    by (unfold d1; rewrite Zdigits2_log2; pose proof (Z.log2_nonneg (Zpos p)); lia).
  assert (Hd2 : 1 <= d2)
    by (unfold d2; rewrite Zdigits2_log2; pose proof (Z.log2_nonneg (Zpos q)); lia).
  assert (F1 : d1 - d2 - 53 <= e).
  { remember (e + 1074) as E eqn:HE.
    assert (HE0 : 0 <= E) by lia.
    assert (HpE : 0 < 2 ^ E) by (apply Z.pow_pos_nonneg; lia).
    assert (H : 2 ^ (d1 - 1 + 1074) < 2 ^ (53 + E + d2)).
    { rewrite (Z.pow_add_r 2 (d1 - 1) 1074) by lia.
      rewrite (Z.pow_add_r 2 (53 + E) d2) by lia.
      rewrite (Z.pow_add_r 2 53 E) by lia.
      apply Z.le_lt_trans with (Zpos p * 2 ^ 1074).
      - apply Z.mul_le_mono_nonneg_r; lia.
      - rewrite Hpq.
        apply Z.le_lt_trans with (2 ^ 53 * 2 ^ E * Zpos q).
        + apply Z.mul_le_mono_nonneg_r; [lia|].
          apply Z.mul_le_mono_nonneg_r; lia.
        + apply Z.mul_lt_mono_pos_l; [|lia].
          apply Z.mul_pos_pos; lia. }
    apply Z.pow_lt_mono_r_iff in H; lia. }
  unfold binary64_of_ratio, SFdiv_core_binary.
  fold d1 d2.
  set (e' := Z.min (fexp 53 1024 (d1 + 0 - (d2 + 0))) (0 - 0)).
  assert (He' : -1074 <= e' <= 0 /\ e' <= e).
  { unfold e'. rewrite fexp_binary64. lia. }
  set (m' := match 0 - 0 - e' with
             | 0 => Zpos p
             | Zpos _ => Z.shiftl (Zpos p) (0 - 0 - e')
             | Zneg _ => 0
             end).
  assert (Hm' : m' = Zpos M * 2 ^ (e - e') * Zpos q).
  { assert (m' = Zpos p * 2 ^ (- e')) as ->.
    { unfold m'. destruct (0 - 0 - e') as [|s|s] eqn:Es.
      - replace (- e') with 0 by lia. simpl. lia.
      - rewrite Z.shiftl_mul_pow2 by lia. f_equal. f_equal. lia.
      - lia. }
    assert (0 < 2 ^ (1074 + e')) as Hpos by (apply Z.pow_pos_nonneg; lia).
    apply (Z.mul_reg_r _ _ (2 ^ (1074 + e'))); [lia|].
    replace (Zpos p * 2 ^ (- e') * 2 ^ (1074 + e')) with (Zpos p * 2 ^ 1074).
    - rewrite Hpq.
      replace (e + 1074) with ((e - e') + (1074 + e')) by lia.
      rewrite Z.pow_add_r by lia. ring.
    - rewrite <- Z.mul_assoc, <- Z.pow_add_r by lia.
      f_equal. f_equal. lia. }
  pose proof (Z_div_mod m' (Zpos q) eq_refl) as Hdiv.
  destruct (Z.div_eucl m' (Zpos q)) as [quo r].
  destruct Hdiv as [Hdiv Hr].
  assert (Hquo : quo = Zpos M * 2 ^ (e - e') /\ r = 0).
  { rewrite Hm' in Hdiv.
    remember (Zpos M * 2 ^ (e - e')) as A eqn:HA.
    pose proof (Z.div_unique_pos (A * Zpos q) (Zpos q) quo r Hr Hdiv) as E1.
    rewrite Z.div_mul in E1 by lia. subst quo. lia. }
  destruct Hquo as [-> ->].
  rewrite new_location_zero.
  apply binary_round_aux_exact; lia.
Qed.

End FloatExact.

Section FloatValue.
Local Open Scope Q_scope.

Lemma Qpow2_nonzero (n : Z) : ~ 2 ^ n == 0.
Proof. apply Qpower_not_0. discriminate. Qed.

Lemma inject_Z_pow2 (n : Z) : (0 <= n)%Z -> inject_Z (2 ^ n) == 2 ^ n.
Proof. intros Hn. now rewrite Zpower_Qpower. Qed.

Lemma Qpow2_add (a b : Z) : 2 ^ (a + b) == 2 ^ a * 2 ^ b.
Proof. apply Qpower_plus. discriminate. Qed.

(** From the equation between rationals to the one between integers. *)
Lemma ratio_equation (p q M : positive) (e : Z) :
  (-1074 <= e)%Z ->
  Zpos p # q == inject_Z (Zpos M) * 2 ^ e ->
  (Zpos p * 2 ^ 1074 = Zpos M * 2 ^ (e + 1074) * Zpos q)%Z.
Proof.
  intros He H.
  assert (Hq : ~ inject_Z (Zpos q) == 0) by (unfold Qeq; simpl; lia).
  assert (E : inject_Z (Zpos p * 2 ^ 1074) == inject_Z (Zpos M * 2 ^ (e + 1074) * Zpos q)).
  { rewrite !inject_Z_mult, !inject_Z_pow2 by lia.
    rewrite Qpow2_add.
    assert (Hp : inject_Z (Zpos p) == (Zpos p # q) * inject_Z (Zpos q)).
    { rewrite (Qmake_Qdiv (Zpos p) q). field. exact Hq. }
    rewrite Hp, H. ring. }
  unfold Qeq in E. simpl in E. lia.
Qed.

Lemma float_of_decimal_exact (m M : N) (k : nat) (e : Z) :
  (M < 2 ^ 53)%N -> (-1074 <= e <= 971)%Z ->
  Z.of_N m # pow10 k == inject_Z (Z.of_N M) * 2 ^ e ->
  exists v, float_value (float_of_decimal m k) = Some v /\ v == Z.of_N m # pow10 k.
Proof.
  intros HM He H. destruct m as [|p].
  - exists 0. split; [reflexivity|]. reflexivity.
  - destruct M as [|M'].
    + exfalso. simpl in H. rewrite Qmult_0_l in H. unfold Qeq in H. simpl in H. lia.
    + simpl in H. apply ratio_equation in H; [|lia].
      assert (HM' : (Zpos M' < 2 ^ 53)%Z) by lia.
      destruct (binary64_of_ratio_exact p (pow10 k) M' e HM' He H)
        as (m' & x & Hr & Hx & Hm').
      unfold float_of_decimal. rewrite Hr. cbn [float_value].
      eexists. split; [reflexivity|].
      assert (Hq : ~ inject_Z (Zpos (pow10 k)) == 0) by (unfold Qeq; simpl; lia).
      rewrite Hm'. rewrite inject_Z_mult, inject_Z_pow2 by lia.
      cbn [Z.of_N]. rewrite (Qmake_Qdiv (Zpos p) (pow10 k)).
      apply (Qmult_inj_r _ _ (2 ^ 1074 * inject_Z (Zpos (pow10 k)))).
      { intros E. apply Qmult_integral in E as [E|E]; [now apply Qpow2_nonzero in E|auto]. }
      transitivity (inject_Z (Zpos M') * (2 ^ (e - x) * 2 ^ x * 2 ^ 1074) * inject_Z (Zpos (pow10 k))).
      { ring. }
      rewrite <- !Qpow2_add.
      replace (e - x + x + 1074)%Z with (e + 1074)%Z by lia.
      rewrite <- inject_Z_pow2 by lia.
      rewrite <- !inject_Z_mult. rewrite <- H.
      rewrite inject_Z_mult, inject_Z_pow2 by lia. field. exact Hq.
Qed.

End FloatValue.

(** C1.  [clean_numeric] never raises; a character that is
    neither a digit nor a point has no effect on its result; it returns
    absent exactly when the text holds no digit or more than one point; and
    on digits with at most one point and at least one digit it returns the
    binary64 float of the decimal written, which is that decimal itself
    whenever the decimal is a binary64 number. *)
Theorem clean_numeric_spec (s : string) :
  (exists r, clean_numeric s = Ok r)
  /\ (forall a c b,
        s = a ++ String c b -> is_digit c = false -> is_point c = false ->
        clean_numeric s = clean_numeric (a ++ b))
  /\ (clean_numeric s = Ok None <->
      count_chars is_digit s = 0%nat \/ (2 <= count_chars is_point s)%nat)
  /\ (forall ip fp,
        all_digits ip = true -> all_digits fp = true ->
        (0 < String.length ip + String.length fp)%nat ->
        s = ip ++ "." ++ fp \/ (s = ip /\ fp = "") ->
        clean_numeric s
        = Ok (Some (float_of_decimal (decimal_value (ip ++ fp)) (String.length fp)))
        /\ (forall (M : N) (e : Z),
              (M < 2 ^ 53)%N -> (-1074 <= e <= 971)%Z ->
              (decimal_Q ip fp == inject_Z (Z.of_N M) * 2 ^ e)%Q ->
              exists v,
                float_value
                  (float_of_decimal (decimal_value (ip ++ fp)) (String.length fp))
                = Some v
                /\ (v == decimal_Q ip fp)%Q)).
Proof.
  split; [|split; [|split]].
  - rewrite clean_numeric_parse. unfold parse_cleaned.
    destruct (scan_decimal _ _ _ _ _) as [[m k]|]; eauto.
  - intros a c b -> Hd Hp.
    rewrite !clean_numeric_parse, !re_sub_non_numeric_app.
    cbn [re_sub_non_numeric]. now rewrite Hd, Hp.
  - rewrite clean_numeric_parse. unfold parse_cleaned.
    rewrite <- (scan_decimal_None s false 0 0 0).
    destruct (scan_decimal _ _ _ _ _) as [[m k]|]; split; congruence.
  - intros ip fp Hip Hfp Hlen Hs. split.
    + rewrite clean_numeric_parse. destruct Hs as [->|[-> ->]].
      * rewrite re_sub_non_numeric_app, (all_digits_re_sub ip Hip).
        change ("." ++ fp) with (String "." fp). cbn [re_sub_non_numeric].
        change (is_digit "." || is_point ".") with true. cbv iota.
        rewrite (all_digits_re_sub fp Hfp).
        now apply parse_cleaned_digits.
      * rewrite (all_digits_re_sub ip Hip), append_empty_r.
        apply parse_cleaned_integer; [assumption|]. simpl in Hlen. lia.
    + intros M e HM He HQ. now apply (float_of_decimal_exact _ M _ e).
Qed.

Lemma clean_numeric_spec_witness :
  clean_numeric "1.50" = Ok (Some (float_of_decimal 150 2))
  /\ exists v, float_value (float_of_decimal 150 2) = Some v /\ (v == 3 # 2)%Q.
Proof.
  destruct (proj2 (proj2 (proj2 (clean_numeric_spec "1.50"))) "1" "50"
              eq_refl eq_refl ltac:(simpl; lia) (or_introl eq_refl)) as [Hv Hx].
  split; [exact Hv|].
  destruct (Hx 3%N (-1)%Z ltac:(reflexivity) ltac:(lia) ltac:(reflexivity))
    as (v & Hf & Hq).
  exists v. split; [exact Hf|]. rewrite Hq. reflexivity.
Defined.

(** The lone point is made of digits and at most one point, and cleans to
    absent. *)
Lemma clean_numeric_lone_point :
  digits_and_at_most_one_point "." /\ clean_numeric "." = Ok None.
Proof.
  split; [split; simpl; lia | vm_compute; reflexivity].
Qed.

(** The float of a decimal is not always the decimal: one tenth. *)
Example clean_numeric_one_tenth :
  exists x v, clean_numeric "0.1" = Ok (Some x)
              /\ float_value x = Some v /\ ~ (v == 1 # 10)%Q.
Proof.
  eexists _, _. split; [vm_compute; reflexivity|]. split; [reflexivity|].
  unfold Qeq. vm_compute. discriminate.
Qed.

(** A long enough run of digits cleans to infinity, one of zeros after the
    point and a digit to zero. *)
Example clean_numeric_overflow :
  clean_numeric (String "1" (String.concat "" (repeat "0" 309)))
  = Ok (Some (S754_infinity false)).
Proof. vm_compute. reflexivity. Qed.

Example clean_numeric_underflow :
  clean_numeric ("0." ++ String.concat "" (repeat "0" 400) ++ "1")
  = Ok (Some (S754_zero false)).
Proof. vm_compute. reflexivity. Qed.

(** ** Trimming and cleaning *)

Lemma isspace_not_numeric (c : ascii) :
  isspace c = true -> is_digit c || is_point c = false.
Proof.
  destruct c as [[] [] [] [] [] [] [] []]; intros H;
    first [discriminate H | reflexivity].
Qed.

Lemma re_sub_lstrip (s : string) :
  re_sub_non_numeric (lstrip s) = re_sub_non_numeric s.
Proof.
  induction s as [|c s IH]; [reflexivity|].
  cbn [lstrip re_sub_non_numeric].
  destruct (isspace c) eqn:E; [|reflexivity].
  now rewrite (isspace_not_numeric c E).
Qed.

Lemma re_sub_rstrip (s : string) :
  re_sub_non_numeric (rstrip s) = re_sub_non_numeric s.
Proof.
  induction s as [|c s IH]; [reflexivity|].
  cbn [rstrip re_sub_non_numeric].
  destruct (isspace c) eqn:E; cbn [andb].
  - rewrite (isspace_not_numeric c E).
    destruct (rstrip s) as [|d r] eqn:Er; cbn [is_empty].
    + now rewrite <- IH.
    + cbn [re_sub_non_numeric] in *. rewrite (isspace_not_numeric c E). exact IH.
  - cbn [re_sub_non_numeric]. now rewrite IH.
Qed.

(** Trimming a cell first does not change what it cleans to. *)
Lemma clean_numeric_strip (s : string) : clean_numeric (strip s) = clean_numeric s.
Proof.
  rewrite !clean_numeric_parse. unfold strip.
  now rewrite re_sub_rstrip, re_sub_lstrip.
Qed.

Lemma clean_numeric_empty : clean_numeric "" = Ok None.
Proof. reflexivity. Qed.

Lemma clean_numeric_total (s : string) : exists r, clean_numeric s = Ok r.
Proof.
  rewrite clean_numeric_parse. unfold parse_cleaned.
  destruct (scan_decimal _ _ _ _ _) as [[m k]|]; eauto.
Qed.

(** ** The PO lookup *)

Section Lookup.
Context {World : Type} (send : request -> World -> outcome * World).
Context (str_global : string -> string) (round2 : float -> float).

(** C10.  When the lookup is answered with a status other than 200,
    [find_po] raises [NameError] for [po_no], having printed nothing; it
    returns only after a 200 answer, and on a 200 answer whose records are
    an empty list it prints the notice and returns the empty list. *)
Theorem find_po_status (u : url) (st : state World) :
  (forall r w,
      send (GET u) (world st) = (Answered r, w) -> status_code r <> 200%Z ->
      find_po send str_global u st
      = (Raise (NameError "name 'po_no' is not defined"), after_request st (GET u) w))
  /\ (forall v st',
        find_po send str_global u st = (Ok v, st') ->
        exists r w, send (GET u) (world st) = (Answered r, w) /\ status_code r = 200%Z)
  /\ (forall r w d,
        send (GET u) (world st) = (Answered r, w) -> status_code r = 200%Z ->
        body_json r = Some (VDict d) -> assoc "records" d = Some (VList []) ->
        find_po send str_global u st
        = (Ok (VList []),
           {| world := w;
              stdout := stdout st
                        ++ ["No results found. Double-check the PO exists and is active"];
              sent := sent st ++ [GET u] |})).
Proof.
  unfold find_po, requests, mbind, M_bind. split; [|split].
  - intros r w Hs Hne. rewrite Hs.
    destruct (Z.eqb_spec (status_code r) 200) as [E|_]; [contradiction|].
    reflexivity.
  - intros v st' H.
    destruct (send (GET u) (world st)) as [[r|msg] w] eqn:Hs; [|discriminate].
    exists r, w. split; [reflexivity|].
    destruct (Z.eqb_spec (status_code r) 200) as [E|_]; [assumption|].
    discriminate.
  - intros r w d Hs H200 Hj Hr. rewrite Hs, H200. cbn [Z.eqb negb].
    unfold lift, json. rewrite Hj. cbn [getitem_str]. rewrite Hr.
    reflexivity.
Qed.

End Lookup.

Lemma find_po_status_witness :
  let u := po_url (process_po_number "123") in
  find_po (answer_status 500) (fun _ => "") u initial
  = (Raise (NameError "name 'po_no' is not defined"), after_request initial (GET u) tt)
  /\ (exists r w, answer_records [] (GET u) tt = (Answered r, w) /\ status_code r = 200%Z)
  /\ find_po (answer_records []) (fun _ => "") u initial
     = (Ok (VList []),
        {| world := tt;
           stdout := ["No results found. Double-check the PO exists and is active"];
           sent := [GET u] |}).
Proof.
  intros u.
  pose proof (find_po_status (answer_records []) (fun _ => "") u initial) as (_ & H2 & H3).
  assert (E : find_po (answer_records []) (fun _ => "") u initial
              = (Ok (VList []),
                 {| world := tt;
                    stdout := ["No results found. Double-check the PO exists and is active"];
                    sent := [GET u] |})).
  { exact (H3 _ tt _ eq_refl eq_refl eq_refl eq_refl). }
  split; [|split].
  - apply (proj1 (find_po_status (answer_status 500) (fun _ => "") u initial) _ tt eq_refl).
    discriminate.
  - exact (H2 _ _ E).
  - exact E.
Defined.

(** ** The upload endpoint *)

Section Upload.
Context {World : Type} (send : request -> World -> outcome * World).
Context (str_global : string -> string) (round2 : float -> float).

Lemma find_po_sent (u : url) (st st' : state World) (r : result value) :
  find_po send str_global u st = (r, st') -> sent st' = (sent st ++ [GET u])%list.
Proof.
  unfold find_po, requests, mbind, M_bind, mret, M_ret, lift, print.
  destruct (send (GET u) (world st)) as [[a|msg] w].
  - destruct (negb (status_code a =? 200)%Z).
    + cbn. intros [= <- <-]. reflexivity.
    + destruct (json a) as [j|e]; [|intros [= <- <-]; reflexivity].
      destruct (getitem_str j "records") as [recs|e]; [|intros [= <- <-]; reflexivity].
      destruct (negb (truthy recs)); cbn.
      * intros [= <- <-]. reflexivity.
      * destruct (getitem_nat recs 0); intros [= <- <-]; reflexivity.
  - intros [= <- <-]. reflexivity.
Qed.

(** C8.  [upload_file] never returns: every run ends in an exception, and
    sends at most the PO lookup, never the update.  A run that gets as far
    as building the payload (form fields filled in, PO found, with an id)
    ends in the [TypeError] of the call that leaves [vendor_no] out. *)
Theorem upload_file_never_completes (po_number : string) (file : UploadFile)
    (create_inventory : option bool) (st : state World) :
  (exists e st',
      upload_file send str_global round2 po_number file create_inventory st
      = (Raise e, st')
      /\ (sent st' = sent st
          \/ sent st' = (sent st ++ [GET (po_url (process_po_number po_number))])%list))
  /\ (forall po st1 po_id,
        is_empty po_number = false -> filename_truthy (filename file) = true ->
        find_po send str_global (po_url (process_po_number po_number)) st = (Ok po, st1) ->
        truthy po = true -> getitem_str po "id" = Ok po_id ->
        upload_file send str_global round2 po_number file create_inventory st
        = (Raise (TypeError
                    "create_payload() missing 1 required positional argument: 'vendor_no'"),
           st1)).
Proof.
  unfold upload_file. split.
  - destruct (is_empty po_number); [eexists _, _; split; [reflexivity|now left]|].
    destruct (filename_truthy (filename file)); cbn [negb];
      [|eexists _, _; split; [reflexivity|now left]].
    unfold mbind, M_bind.
    destruct (find_po send str_global (po_url (process_po_number po_number)) st)
      as [[po|e] st1] eqn:Hf; pose proof (find_po_sent _ _ _ _ Hf) as Hsent.
    + destruct (truthy po); cbn [negb];
        [|eexists _, _; split; [reflexivity|now right]].
      unfold lift.
      destruct (getitem_str po "id");
        eexists _, _; (split; [reflexivity|now right]).
    + eexists _, _; split; [reflexivity|now right].
  - intros po st1 po_id H1 H2 Hf Ht Hid.
    rewrite H1, H2. cbn [negb]. unfold mbind, M_bind. rewrite Hf, Ht. cbn [negb].
    unfold lift. rewrite Hid. reflexivity.
Qed.

End Upload.

Lemma upload_file_never_completes_witness :
  let file := {| filename := Some "po.csv";
                 rows := [["PART NO"; "ORDER QTY"]; ["ABC123"; "5"]] |} in
  upload_file (answer_records [VDict [("id", VInt 7)]]) (fun _ => "") (fun x => x)
    "123" file None initial
  = (Raise (TypeError
              "create_payload() missing 1 required positional argument: 'vendor_no'"),
     {| world := tt; stdout := [];
        sent := [GET (po_url (process_po_number "123"))] |}).
Proof.
  intros file.
  exact (proj2 (upload_file_never_completes
                  (answer_records [VDict [("id", VInt 7)]]) (fun _ => "") (fun x => x)
                  "123" file None initial)
           (VDict [("id", VInt 7)]) _ (VInt 7) eq_refl eq_refl eq_refl eq_refl eq_refl).
Defined.

Lemma clean_numeric_cleaned (s : string) : clean_numeric s = Ok (cleaned s).
Proof.
  unfold cleaned. destruct (clean_numeric_total s) as [r ->]. reflexivity.
Qed.

Lemma cleaned_strip (s : string) : cleaned (strip s) = cleaned s.
Proof. unfold cleaned. now rewrite clean_numeric_strip. Qed.

Lemma clean_price (c : string) :
  (if negb (is_empty (strip c)) then clean_numeric (strip c) else Ok None)
  = Ok (cleaned c).
Proof.
  rewrite <- cleaned_strip, <- clean_numeric_cleaned.
  destruct (strip c); reflexivity.
Qed.

(** [get_values] in terms of the four cells. *)
Lemma get_values_cells (row : list string) (headers_map : gmap string nat)
    (part qty : string) (price description : option string) :
  cell row headers_map "PART NO" = Ok part ->
  cell row headers_map "ORDER QTY" = Ok qty ->
  optional_cell row headers_map "UNIT PRICE" = Ok price ->
  optional_cell row headers_map "DESCRIPTION" = Ok description ->
  get_values row headers_map
  = (Some (strip part),
     match cleaned qty with
     | None => Raise (ValueError ("Invalid quantity: " ++ strip qty))
     | Some x =>
         Ok {| lv_part_no := strip part; lv_description := description_of description;
               lv_order_qty := x; lv_unit_price := price_of price |}
     end).
Proof.
  intros Hp Hq Hu Hd. unfold get_values, optional_cell in *. rewrite Hp.
  f_equal. rewrite Hq. cbn [mbind result_bind].
  assert (Eu : (if map_contains headers_map "UNIT PRICE"
                then c ← cell row headers_map "UNIT PRICE"; Ok (Some (strip c))
                else Ok None) = Ok (option_map strip price)).
  { destruct (map_contains headers_map "UNIT PRICE"); [|now inversion Hu].
    destruct (cell row headers_map "UNIT PRICE"); now inversion Hu. }
  assert (Ed : (if map_contains headers_map "DESCRIPTION"
                then c ← cell row headers_map "DESCRIPTION"; Ok (strip c)
                else Ok "") = Ok (description_of description)).
  { destruct (map_contains headers_map "DESCRIPTION"); [|now inversion Hd].
    destruct (cell row headers_map "DESCRIPTION"); now inversion Hd. }
  rewrite Eu, Ed. cbn [mbind result_bind].
  rewrite clean_numeric_cleaned, cleaned_strip. cbn [mbind result_bind].
  assert (Ep : match option_map strip price with
               | Some p => if negb (is_empty p) then clean_numeric p else Ok None
               | None => Ok None
               end = Ok (price_of price)).
  { destruct price as [c|]; [apply clean_price | reflexivity]. }
  rewrite Ep. cbn [mbind result_bind]. destruct (cleaned qty); reflexivity.
Qed.

Section Items.
Context {World : Type} (send : request -> World -> outcome * World).
Context (round2 : float -> float).

Lemma item_of_setitem (v : line_values) :
  (let item := [
     ("inventory", VDict [("whse", VStr "00"); ("partNo", VStr (lv_part_no v))]);
     ("orderQty", VFloat (lv_order_qty v)) ] in
   let item :=
     if price_truthy (lv_unit_price v)
     then setitem "unitPrice" (value_of_cost (lv_unit_price v)) item else item in
   let item :=
     if negb (is_empty (lv_description v))
     then setitem "description" (VStr (lv_description v)) item else item in
   VDict item) = item_of v.
Proof.
  unfold item_of, line_item.
  destruct (price_truthy (lv_unit_price v)), (negb (is_empty (lv_description v)));
    reflexivity.
Qed.

(** Without the inventory flag a row is processed with no effect. *)
Lemma process_line_item_plain (row : list string) (headers_map : gmap string nat)
    (vendor_no : value) (st : state World) (p : option string) (v : line_values) :
  get_values row headers_map = (p, Ok v) ->
  process_line_item send round2 row headers_map false vendor_no st = (Ok (item_of v), st).
Proof.
  intros Hg. unfold process_line_item. rewrite Hg.
  destruct p; unfold mbind, M_bind, mret, M_ret; rewrite item_of_setitem; reflexivity.
Qed.

(** A row whose values cannot be read fails with no effect. *)
Lemma process_line_item_values_error (row : list string) (headers_map : gmap string nat)
    (create_inventory : bool) (vendor_no : value) (st : state World)
    (part_no : string) (e : exn) :
  get_values row headers_map = (Some part_no, Raise e) ->
  process_line_item send round2 row headers_map create_inventory vendor_no st
  = (Raise (HTTPException 400 ("Error geting values for " ++ part_no ++ ": " ++ str_exn e)),
     st).
Proof. intros Hg. unfold process_line_item. rewrite Hg. reflexivity. Qed.

(** Every item returned is the item of the row's values. *)
Lemma process_line_item_returns (row : list string) (headers_map : gmap string nat)
    (create_inventory : bool) (vendor_no : value) (st st' : state World) (item : value) :
  process_line_item send round2 row headers_map create_inventory vendor_no st
  = (Ok item, st') ->
  exists p v, get_values row headers_map = (p, Ok v) /\ item = item_of v.
Proof.
  unfold process_line_item.
  destruct (get_values row headers_map) as [p [v|e]] eqn:Hg.
  - intros H. exists p, v. split; [reflexivity|].
    assert (H' : (let part_no := lv_part_no v in
                  let description := lv_description v in
                  let unit_price := lv_unit_price v in
                  (if create_inventory then
                     found ← item_exists send part_no;
                     if negb found then
                       if negb (is_empty description) then
                         try_except
                           (create_inventory_item send round2 part_no description
                              unit_price [vendor_no];; mret tt)
                           (fun e => raise (HTTPException 400
                              ("Error creating " ++ part_no ++ ": " ++ str_exn e)))
                       else
                         print ("Warning: " ++ part_no ++ " needs a description to be created!")
                     else mret tt
                   else mret tt);;
                  mret (item_of v)) st = (Ok item, st')).
    { rewrite <- item_of_setitem. destruct p; exact H. }
    clear H. cbv zeta in H'. unfold mbind, M_bind, mret, M_ret in H'.
    match type of H' with
    | (match ?c st with _ => _ end) = _ => destruct (c st) as [[[]|e] st1]
    end; [now inversion H' | discriminate H'].
  - destruct p; discriminate.
Qed.

End Items.

(** What a successful [try] block says about the cells of the row. *)
Lemma get_values_inv (row : list string) (headers_map : gmap string nat)
    (p : option string) (v : line_values) :
  get_values row headers_map = (p, Ok v) ->
  exists part qty price description x,
    cell row headers_map "PART NO" = Ok part
    /\ cell row headers_map "ORDER QTY" = Ok qty
    /\ optional_cell row headers_map "UNIT PRICE" = Ok price
    /\ optional_cell row headers_map "DESCRIPTION" = Ok description
    /\ cleaned qty = Some x
    /\ p = Some (strip part)
    /\ v = {| lv_part_no := strip part; lv_description := description_of description;
              lv_order_qty := x; lv_unit_price := price_of price |}.
Proof.
  intros Hg.
  destruct (cell row headers_map "PART NO") as [part|e] eqn:Hp;
    [|unfold get_values in Hg; rewrite Hp in Hg; discriminate Hg].
  destruct (cell row headers_map "ORDER QTY") as [qty|e] eqn:Hq;
    [|unfold get_values in Hg; rewrite Hp, Hq in Hg; discriminate Hg].
  destruct (optional_cell row headers_map "UNIT PRICE") as [price|e] eqn:Hu.
  - destruct (optional_cell row headers_map "DESCRIPTION") as [description|e] eqn:Hd.
    + rewrite (get_values_cells _ _ _ _ _ _ Hp Hq Hu Hd) in Hg.
      destruct (cleaned qty) as [x|] eqn:Hx; [|discriminate Hg].
      injection Hg as <- <-. exists part, qty, price, description, x. tauto.
    + exfalso. unfold get_values, optional_cell in *. rewrite Hp, Hq in Hg.
      cbn [mbind result_bind] in Hg.
      destruct (map_contains headers_map "UNIT PRICE");
        destruct (map_contains headers_map "DESCRIPTION"); try discriminate Hd;
        destruct (cell row headers_map "DESCRIPTION"); try discriminate Hd;
        try (destruct (cell row headers_map "UNIT PRICE"); try discriminate Hu);
        discriminate Hg.
  - exfalso. unfold get_values, optional_cell in *. rewrite Hp, Hq in Hg.
    cbn [mbind result_bind] in Hg.
    destruct (map_contains headers_map "UNIT PRICE"); [|discriminate Hu].
    destruct (cell row headers_map "UNIT PRICE"); [discriminate Hu | discriminate Hg].
Qed.

Lemma cleaned_empty : cleaned "" = None.
Proof. reflexivity. Qed.

(** A cell that cleans to a number is not blank. *)
Lemma cleaned_Some_strip (c : string) (x : float) :
  cleaned c = Some x -> strip c <> "".
Proof.
  intros H E. rewrite <- cleaned_strip, E in H. discriminate H.
Qed.

Lemma is_empty_false (s : string) : is_empty s = false <-> s <> "".
Proof. destruct s; cbn; split; congruence. Qed.

(** The fields of a line item. *)
Lemma line_item_inventory (part_no : string) (x : float) (up : option float)
    (d : string) :
  getitem_str (line_item part_no x up d) "inventory"
  = Ok (VDict [("whse", VStr "00"); ("partNo", VStr part_no)]).
Proof. reflexivity. Qed.

Lemma line_item_orderQty (part_no : string) (x : float) (up : option float)
    (d : string) :
  getitem_str (line_item part_no x up d) "orderQty" = Ok (VFloat x).
Proof. reflexivity. Qed.

Lemma line_item_unitPrice (part_no : string) (x : float) (up : option float)
    (d : string) :
  getitem_str (line_item part_no x up d) "unitPrice"
  = match up with
    | Some y => if float_bool y then Ok (VFloat y) else Raise (KeyError "'unitPrice'")
    | None => Raise (KeyError "'unitPrice'")
    end.
Proof.
  unfold line_item.
  destruct up as [y|]; cbn [price_truthy]; [destruct (float_bool y)|];
    destruct (negb (is_empty d)); reflexivity.
Qed.

Lemma line_item_description (part_no : string) (x : float) (up : option float)
    (d : string) :
  getitem_str (line_item part_no x up d) "description"
  = if is_empty d then Raise (KeyError "'description'") else Ok (VStr d).
Proof.
  unfold line_item.
  destruct (price_truthy up); destruct (is_empty d); reflexivity.
Qed.

(** A float whose truth value is false is a zero. *)
Lemma float_bool_false (x : float) :
  float_bool x = false <-> exists q, float_value x = Some q /\ (q == 0)%Q.
Proof.
  split.
  - destruct x; try discriminate. intros _. exists 0%Q. split; reflexivity.
  - intros [q [Hv Hq]]. destruct x as [s| | |s m e]; try reflexivity; try discriminate.
    exfalso. injection Hv as <-.
    apply Qmult_integral in Hq as [Hq|Hq]; [|exact (Qpow2_nonzero e Hq)].
    apply Qmult_integral in Hq as [Hq|Hq]; [destruct s; discriminate Hq|].
    discriminate Hq.
Qed.

Section LineItems.
Context {World : Type} (send : request -> World -> outcome * World).
Context (round2 : float -> float).

(** C6.  Every item that row processing returns holds the warehouse "00"
    with the trimmed part number cell (which may be empty), and the number
    the quantity cell cleans to; it holds a unit price only when the header
    has a UNIT PRICE column and the row's cell under it is not blank and
    cleans to a number other than zero, which is the price; it holds a
    description only when the header has a DESCRIPTION column and the
    trimmed cell under it is not empty, which is the description. *)
Theorem line_item_fields (row : list string) (headers_map : gmap string nat)
    (create_inventory : bool) (vendor_no : value) (st st' : state World)
    (item : value) :
  process_line_item send round2 row headers_map create_inventory vendor_no st
  = (Ok item, st') ->
  exists part qty x,
    cell row headers_map "PART NO" = Ok part
    /\ cell row headers_map "ORDER QTY" = Ok qty
    /\ clean_numeric qty = Ok (Some x)
    /\ getitem_str item "inventory"
       = Ok (VDict [("whse", VStr "00"); ("partNo", VStr (strip part))])
    /\ getitem_str item "orderQty" = Ok (VFloat x)
    /\ (forall y, getitem_str item "unitPrice" = Ok y ->
          exists c p, map_contains headers_map "UNIT PRICE" = true
                      /\ cell row headers_map "UNIT PRICE" = Ok c
                      /\ strip c <> ""
                      /\ clean_numeric c = Ok (Some p)
                      /\ float_bool p = true
                      /\ y = VFloat p)
    /\ (forall y, getitem_str item "description" = Ok y ->
          exists c, map_contains headers_map "DESCRIPTION" = true
                    /\ cell row headers_map "DESCRIPTION" = Ok c
                    /\ strip c <> ""
                    /\ y = VStr (strip c)).
Proof.
  intros H. apply process_line_item_returns in H as (p & v & Hg & ->).
  apply get_values_inv in Hg
    as (part & qty & price & description & x & Hp & Hq & Hu & Hd & Hx & _ & ->).
  exists part, qty, x. unfold item_of. cbn [lv_part_no lv_order_qty lv_unit_price lv_description].
  split; [exact Hp|]. split; [exact Hq|].
  split; [now rewrite clean_numeric_cleaned, Hx|].
  split; [apply line_item_inventory|]. split; [apply line_item_orderQty|]. split.
  - intros y. rewrite line_item_unitPrice. unfold optional_cell in Hu.
    destruct (map_contains headers_map "UNIT PRICE"); [|injection Hu as <-; discriminate].
    destruct (cell row headers_map "UNIT PRICE") as [c|e]; [|discriminate Hu].
    injection Hu as <-. cbn [price_of].
    destruct (cleaned c) as [pr|] eqn:Hc; [|discriminate].
    destruct (float_bool pr) eqn:Hb; [|discriminate].
    intros [= <-]. exists c, pr. repeat split; try reflexivity.
    + exact (cleaned_Some_strip c pr Hc).
    + now rewrite clean_numeric_cleaned, Hc.
    + exact Hb.
  - intros y. rewrite line_item_description. unfold optional_cell in Hd.
    destruct (map_contains headers_map "DESCRIPTION");
      [|injection Hd as <-; discriminate].
    destruct (cell row headers_map "DESCRIPTION") as [c|e]; [|discriminate Hd].
    injection Hd as <-. cbn [description_of].
    destruct (is_empty (strip c)) eqn:He; [discriminate|].
    intros [= <-]. exists c. repeat split; try reflexivity.
    now apply is_empty_false.
Qed.

(** C9.  When the unit price cell of a row cleans to zero, or to nothing,
    no item returned for the row has a unit price; and the row is not
    refused for it: if the part number and quantity cells are there and
    the quantity cleans to a number, processing without the inventory flag
    returns the item with no unit price. *)
Theorem zero_price_omitted (row : list string) (headers_map : gmap string nat)
    (c : string) :
  map_contains headers_map "UNIT PRICE" = true ->
  cell row headers_map "UNIT PRICE" = Ok c ->
  clean_numeric c = Ok None
  \/ (exists x q, clean_numeric c = Ok (Some x) /\ float_value x = Some q /\ (q == 0)%Q) ->
  (forall create_inventory vendor_no (st st' : state World) item,
      process_line_item send round2 row headers_map create_inventory vendor_no st
      = (Ok item, st') ->
      getitem_str item "unitPrice" = Raise (KeyError "'unitPrice'"))
  /\ (forall part qty description x vendor_no (st : state World),
        cell row headers_map "PART NO" = Ok part ->
        cell row headers_map "ORDER QTY" = Ok qty ->
        optional_cell row headers_map "DESCRIPTION" = Ok description ->
        clean_numeric qty = Ok (Some x) ->
        process_line_item send round2 row headers_map false vendor_no st
        = (Ok (line_item (strip part) x None (description_of description)), st)).
Proof.
  intros Hm Hc Hz.
  assert (Hu : optional_cell row headers_map "UNIT PRICE" = Ok (Some c)).
  { unfold optional_cell. now rewrite Hm, Hc. }
  assert (Ht : price_truthy (cleaned c) = false).
  { destruct Hz as [Hz|(x & q & Hx & Hq)]; rewrite clean_numeric_cleaned in *.
    - now injection Hz as ->.
    - injection Hx as ->. cbn [price_truthy]. apply float_bool_false. eauto. }
  split.
  - intros ci vendor_no st st' item H.
    apply process_line_item_returns in H as (p & v & Hg & ->).
    apply get_values_inv in Hg
      as (part & qty & price & description & x & _ & _ & Hu' & _ & _ & _ & ->).
    rewrite Hu in Hu'. injection Hu' as <-. unfold item_of.
    cbn [lv_part_no lv_order_qty lv_unit_price lv_description price_of].
    rewrite line_item_unitPrice. destruct (cleaned c) as [y|]; [|reflexivity].
    cbn [price_truthy] in Ht. now rewrite Ht.
  - intros part qty description x vendor_no st Hp Hq Hd Hx.
    rewrite clean_numeric_cleaned in Hx. injection Hx as Hx.
    pose proof (get_values_cells _ _ _ _ _ _ Hp Hq Hu Hd) as Hg. rewrite Hx in Hg.
    rewrite (process_line_item_plain send round2 _ _ vendor_no st _ _ Hg).
    unfold item_of, line_item.
    cbn [lv_part_no lv_order_qty lv_unit_price lv_description price_of].
    rewrite Ht. reflexivity.
Qed.

End LineItems.

Lemma line_item_fields_witness :
  let headers_map :=
    build_headers_map 0 ["Part No"; "Order Qty"; "Description"; "Unit Price"] ∅ in
  let row := ["ABC123"; " 5 "; "Bolt"; "$1.50"] in
  exists part qty x,
    cell row headers_map "PART NO" = Ok part
    /\ cell row headers_map "ORDER QTY" = Ok qty
    /\ clean_numeric qty = Ok (Some x)
    /\ getitem_str (line_item "ABC123" (float_of_decimal 5 0)
                      (Some (float_of_decimal 150 2)) "Bolt") "inventory"
       = Ok (VDict [("whse", VStr "00"); ("partNo", VStr (strip part))]).
Proof.
  intros headers_map row.
  destruct (line_item_fields (answer_records []) (fun x => x) row headers_map false VNone
              initial initial
              (line_item "ABC123" (float_of_decimal 5 0)
                 (Some (float_of_decimal 150 2)) "Bolt") ltac:(vm_compute; reflexivity))
    as (part & qty & x & Hp & Hq & Hx & Hi & _).
  exists part, qty, x. auto.
Defined.

(** A retained row with a blank part number cell yields an item whose part
    number is empty. *)
Lemma empty_part_number_item :
  let headers_map := build_headers_map 0 ["PART NO"; "ORDER QTY"] ∅ in
  let row := [""; "5"] in
  any row = true
  /\ process_line_item (answer_records []) (fun x => x) row headers_map false VNone initial
     = (Ok (VDict [("inventory", VDict [("whse", VStr "00"); ("partNo", VStr "")]);
                   ("orderQty", VFloat (float_of_decimal 5 0))]),
        initial).
Proof. split; vm_compute; reflexivity. Qed.

Lemma zero_price_omitted_witness :
  let headers_map := build_headers_map 0 ["PART NO"; "ORDER QTY"; "UNIT PRICE"] ∅ in
  let row := ["ABC123"; "5"; "$0.00"] in
  clean_numeric "$0.00" = Ok (Some (S754_zero false))
  /\ process_line_item (answer_records []) (fun x => x) row headers_map false VNone initial
     = (Ok (VDict [("inventory", VDict [("whse", VStr "00"); ("partNo", VStr "ABC123")]);
                   ("orderQty", VFloat (float_of_decimal 5 0))]),
        initial).
Proof.
  intros headers_map row. split; [vm_compute; reflexivity|].
  exact (proj2 (zero_price_omitted (answer_records []) (fun x => x) row headers_map "$0.00"
                  eq_refl eq_refl
                  (or_intror (ex_intro _ (S754_zero false)
                     (ex_intro _ 0%Q (conj eq_refl (conj eq_refl (Qeq_refl 0)))))))
           "ABC123" "5" None (float_of_decimal 5 0) VNone initial
           eq_refl eq_refl eq_refl eq_refl).
Defined.

(** ** Inventory creation *)

Section Inventory.
Context {World : Type} (send : request -> World -> outcome * World).
Context (round2 : float -> float).

(** The existence check sends its one request and prints nothing. *)
Lemma item_exists_effect (part_no : string) (st st' : state World) (r : result bool) :
  item_exists send part_no st = (r, st') ->
  st' = after_send send (exists_request part_no) st.
Proof.
  unfold item_exists, exists_request, after_send, requests, mbind, M_bind, mret, M_ret, lift.
  destruct (send _ (world st)) as [[a|msg] w]; cbn [snd].
  - destruct (status_code a =? 200)%Z; [|now intros [= <- <-]].
    destruct (json a) as [j|e]; [|now intros [= <- <-]].
    destruct (getitem_str j "records"); now intros [= <- <-].
  - now intros [= <- <-].
Qed.

(** The call in [process_line_item] passes four arguments to a function of
    three: it raises before it sends anything. *)
Lemma create_inventory_item_arity (part_no description : string) (cost : option float)
    (vendor_no : value) (st : state World) :
  create_inventory_item send round2 part_no description cost [vendor_no] st
  = (Raise (TypeError arity_message), st).
Proof. reflexivity. Qed.

(** Called with its three arguments, the function does not raise on a
    response other than 201: it prints the failure and returns [None]. *)
Lemma create_inventory_item_refused (part_no description : string) (cost : float)
    (st : state World) (response : response) (w : World) :
  let payload := VDict [
    ("pricing", VDict [("EA", VDict [("sellPrices",
       VList [VFloat (round2 (SFdiv 53 1024 cost (float_of_decimal 55 2)))])])]);
    ("partNo", VStr part_no);
    ("description", VStr description);
    ("whse", VStr "00");
    ("currentCost", VFloat cost) ] in
  send (POST inventory_items payload) (world st) = (Answered response, w) ->
  status_code response <> 201%Z ->
  create_inventory_item send round2 part_no description (Some cost) [] st
  = (Ok None,
     {| world := w;
        stdout := (stdout st ++ [("Failed to create inventory item " ++ part_no
                                  ++ ", status code: " ++ pretty (status_code response)
                                  ++ nl ++ text response)%string])%list;
        sent := (sent st ++ [POST inventory_items payload])%list |}).
Proof.
  intros payload Hs Hn.
  unfold create_inventory_item, requests, mbind, M_bind, mret, M_ret, lift, print.
  cbn [div_055 value_of_cost]. fold payload. rewrite Hs.
  apply Z.eqb_neq in Hn. rewrite Hn. reflexivity.
Qed.

(** C7.  With the inventory flag set and the part reported missing, a row
    with a description is refused before any creation request is sent: the
    call passes one argument too many, and the [TypeError] is reported as
    the creation error for the part.  A row without a description yields
    its item, with no description field, after the warning is printed.  In
    both cases the existence check is the only request sent. *)
Theorem inventory_creation_never_requested (row : list string)
    (headers_map : gmap string nat) (vendor_no : value) (st st1 : state World)
    (p : option string) (v : line_values) :
  get_values row headers_map = (p, Ok v) ->
  item_exists send (lv_part_no v) st = (Ok false, st1) ->
  sent st1 = (sent st ++ [exists_request (lv_part_no v)])%list
  /\ (lv_description v <> "" ->
      process_line_item send round2 row headers_map true vendor_no st
      = (Raise (HTTPException 400
                  ("Error creating " ++ lv_part_no v ++ ": " ++ arity_message)),
         st1))
  /\ (lv_description v = "" ->
      process_line_item send round2 row headers_map true vendor_no st
      = (Ok (item_of v),
         {| world := world st1;
            stdout := (stdout st1 ++ [warning (lv_part_no v)])%list;
            sent := sent st1 |})
      /\ getitem_str (item_of v) "description" = Raise (KeyError "'description'")).
Proof.
  intros Hg He. split; [|split].
  - now rewrite (item_exists_effect _ _ _ _ He).
  - intros Hd. apply is_empty_false in Hd.
    unfold process_line_item. rewrite Hg.
    destruct p; unfold mbind, M_bind; rewrite He; cbn [negb]; rewrite Hd; cbn [negb];
      unfold try_except; rewrite create_inventory_item_arity; reflexivity.
  - intros Hd. split.
    + unfold process_line_item. rewrite Hg.
      destruct p; unfold mbind, M_bind; rewrite He; cbn [negb];
        rewrite <- item_of_setitem; rewrite Hd; reflexivity.
    + unfold item_of. rewrite line_item_description, Hd. reflexivity.
Qed.

End Inventory.

Lemma inventory_creation_never_requested_witness :
  let headers_map :=
    build_headers_map 0 ["PART NO"; "ORDER QTY"; "DESCRIPTION"; "UNIT PRICE"] ∅ in
  let row := ["ABC123"; "5"; "Bolt"; "$1.50"] in
  process_line_item (answer_records []) (fun x => x) row headers_map true (VStr "V001")
    initial
  = (Raise (HTTPException 400
      "Error creating ABC123: create_inventory_item() takes 3 positional arguments but 4 were given"),
     {| world := tt; stdout := []; sent := [exists_request "ABC123"] |}).
Proof.
  intros headers_map row.
  exact (proj1 (proj2 (inventory_creation_never_requested (answer_records []) (fun x => x)
                         row headers_map (VStr "V001") initial
                         {| world := tt; stdout := []; sent := [exists_request "ABC123"] |}
                         (Some "ABC123")
                         {| lv_part_no := "ABC123"; lv_description := "Bolt";
                            lv_order_qty := float_of_decimal 5 0;
                            lv_unit_price := Some (float_of_decimal 150 2) |}
                         eq_refl eq_refl))
           ltac:(discriminate)).
Defined.

Section Payload.
Context {World : Type} (send : request -> World -> outcome * World).
Context (round2 : float -> float).

Lemma headers_map_contains (headers : list string) (i : nat) (m : gmap string nat)
    (h : string) :
  map_contains (build_headers_map i headers m) h = true
  <-> In h (List.map upper headers) \/ map_contains m h = true.
Proof.
  revert i m. induction headers as [|header rest IH]; intros i m; cbn [build_headers_map List.map In].
  - tauto.
  - rewrite IH. unfold map_contains. rewrite lookup_insert.
    destruct (decide (upper header = h)) as [->|Hne].
    + tauto.
    + split; [intros [H|H]; [|right]; tauto | intros [[H|H]|H]; tauto].
Qed.

Lemma headers_map_present (headers : list string) (h : string) :
  map_contains (build_headers_map 0 headers ∅) h = true <-> In h (List.map upper headers).
Proof.
  rewrite headers_map_contains. unfold map_contains. rewrite lookup_empty.
  split; [intros [H|H]; [exact H | discriminate H] | tauto].
Qed.

Lemma check_required_missing (headers_map : gmap string nat) (pre post : list string)
    (h : string) :
  (forall r, In r pre -> map_contains headers_map r = true) ->
  map_contains headers_map h = false ->
  check_required (pre ++ h :: post) headers_map = Raise (missing_column h).
Proof.
  intros Hpre Hh. induction pre as [|r pre IH]; cbn [app check_required].
  - rewrite Hh. reflexivity.
  - rewrite (Hpre r (or_introl eq_refl)). cbn [negb]. apply IH.
    intros r' Hr'. apply Hpre. now right.
Qed.

Lemma check_required_present (headers_map : gmap string nat) (required : list string) :
  (forall r, In r required -> map_contains headers_map r = true) ->
  check_required required headers_map = Ok tt.
Proof.
  induction required as [|r rest IH]; intros H; cbn [check_required]; [reflexivity|].
  rewrite (H r (or_introl eq_refl)). cbn [negb]. apply IH.
  intros r' Hr'. apply H. now right.
Qed.

(** The loop is row processing over the rows that are not empty, the items
    appended in order to those gathered so far. *)
Lemma payload_loop_process_all (lines : list (list string))
    (headers_map : gmap string nat) (create_inventory : bool) (vendor_no : value)
    (items : list value) (st : state World) :
  payload_loop send round2 lines headers_map create_inventory vendor_no items st
  = (xs ← process_all send round2 (List.filter any lines) headers_map create_inventory
            vendor_no;
     mret (items ++ xs)%list) st.
Proof.
  revert items st. induction lines as [|line rest IH]; intros items st;
    cbn [payload_loop List.filter].
  - unfold process_all, mbind, M_bind, mret, M_ret. now rewrite app_nil_r.
  - destruct (any line); cbn [negb]; [|apply IH].
    cbn [process_all]. unfold mbind, M_bind at 1 2 3.
    destruct (process_line_item send round2 line headers_map create_inventory vendor_no st)
      as [[item|e] st1]; [|reflexivity].
    rewrite IH. unfold mbind, M_bind, mret, M_ret.
    destruct (process_all send round2 (List.filter any rest) headers_map create_inventory
                vendor_no st1) as [[xs|e] st2]; [|reflexivity].
    now rewrite <- app_assoc.
Qed.

Lemma process_all_processed (lines : list (list string)) (headers_map : gmap string nat)
    (create_inventory : bool) (vendor_no : value) (st st' : state World)
    (items : list value) :
  process_all send round2 lines headers_map create_inventory vendor_no st = (Ok items, st')
  <-> processed send round2 headers_map create_inventory vendor_no lines items st st'.
Proof.
  revert st items. induction lines as [|line rest IH]; intros st items; cbn [process_all].
  - unfold mret, M_ret. split.
    + intros [= <- <-]. constructor.
    + intros H. inversion H. reflexivity.
  - unfold mbind, M_bind, mret, M_ret. split.
    + intros H.
      destruct (process_line_item send round2 line headers_map create_inventory vendor_no st)
        as [[item|e] st1] eqn:Hp; [|discriminate H].
      destruct (process_all send round2 rest headers_map create_inventory vendor_no st1)
        as [[xs|e] st2] eqn:Ha; [|discriminate H].
      injection H as <- <-. econstructor; [exact Hp|]. now apply IH.
    + intros H. inversion H as [|? ? item xs ? st1 ? Hp Hr]; subst.
      rewrite Hp. apply IH in Hr. rewrite Hr. reflexivity.
Qed.

Lemma processed_length (headers_map : gmap string nat) (create_inventory : bool)
    (vendor_no : value) (lines : list (list string)) (items : list value)
    (st st' : state World) :
  processed send round2 headers_map create_inventory vendor_no lines items st st' ->
  length items = length lines.
Proof. induction 1; cbn; congruence. Qed.

End Payload.

Section Build.
Context {World : Type} (send : request -> World -> outcome * World).
Context (round2 : float -> float).

(** A row is skipped exactly when every cell of it is the empty string. *)
Lemma any_false (line : list string) :
  any line = false <-> Forall (fun c => c = "") line.
Proof.
  unfold any. induction line as [|c rest IH]; cbn [existsb].
  - split; [constructor | reflexivity].
  - rewrite orb_false_iff, IH, Forall_cons_iff, negb_false_iff.
    destruct c; cbn [is_empty]; intuition congruence.
Qed.

(** With its headers in place, the builder is the loop over the data rows. *)
Lemma create_payload_rows (file : UploadFile) (headers : list string)
    (lines : list (list string)) (required : list string) (create_inventory : bool)
    (vendor_no : value) (st : state World) :
  rows file = headers :: lines ->
  (forall r, In r required -> In r (List.map upper headers)) ->
  create_payload send round2 file required create_inventory (Some vendor_no) st
  = (items ← process_all send round2 (List.filter any lines)
               (build_headers_map 0 headers ∅) create_inventory vendor_no;
     mret (VDict [("items", VList items)])) st.
Proof.
  intros Hr Hh. unfold create_payload. rewrite Hr.
  rewrite check_required_present
    by (intros r Hin; apply headers_map_present, Hh, Hin).
  unfold mbind at 1, M_bind at 1, lift. unfold mbind at 1, M_bind at 1.
  rewrite payload_loop_process_all. unfold mbind, M_bind, mret, M_ret.
  destruct (process_all _ _ _ _ _ _ st) as [[xs|e] st1]; reflexivity.
Qed.

(** C5.  With the required headers present, the payload is returned
    exactly when row processing, applied in order to the data rows that
    have a non-empty cell, returns an item for each of them: the payload
    then holds these items, one for each such row, in the order of the
    rows.  Rows whose cells are all empty take no part. *)
Theorem rows_in_order (file : UploadFile) (headers : list string)
    (lines : list (list string)) (required : list string) (create_inventory : bool)
    (vendor_no : value) (st st' : state World) (payload : value) :
  rows file = headers :: lines ->
  (forall r, In r required -> In r (List.map upper headers)) ->
  create_payload send round2 file required create_inventory (Some vendor_no) st
  = (Ok payload, st')
  <-> exists items,
        payload = VDict [("items", VList items)]
        /\ processed send round2 (build_headers_map 0 headers ∅) create_inventory
             vendor_no (List.filter any lines) items st st'
        /\ length items = length (List.filter any lines).
Proof.
  intros Hr Hh. rewrite (create_payload_rows _ _ _ _ _ _ _ Hr Hh).
  unfold mbind, M_bind, mret, M_ret. split.
  - destruct (process_all _ _ _ _ _ _ st) as [[xs|e] st1] eqn:Ha; [|discriminate].
    intros [= <- <-]. apply process_all_processed in Ha.
    exists xs. split; [reflexivity|]. split; [exact Ha|].
    exact (processed_length _ _ _ _ _ _ _ _ _ Ha).
  - intros (items & -> & Hp & _). apply process_all_processed in Hp.
    rewrite Hp. reflexivity.
Qed.

(** The errors of the existence check are those of the request and of
    reading its answer. *)
Lemma item_exists_error (part_no : string) (st st' : state World) (e : exn) :
  item_exists send part_no st = (Raise e, st') -> is_HTTPException e = false.
Proof.
  unfold item_exists, requests, mbind, M_bind, mret, M_ret, lift.
  destruct (send _ (world st)) as [[a|msg] w].
  - destruct (status_code a =? 200)%Z; [|discriminate].
    unfold json. destruct (body_json a) as [j|]; [|now intros [= <- <-]].
    destruct (getitem_str j "records") as [recs|e'] eqn:Hg; [discriminate|].
    intros [= <- <-]. unfold getitem_str in Hg.
    destruct j; try (injection Hg as <-; reflexivity).
    destruct (assoc "records" _); [discriminate Hg | injection Hg as <-; reflexivity].
  - now intros [= <- <-].
Qed.

(** Row processing never raises the error of a missing column. *)
Lemma process_line_item_error (row : list string) (headers_map : gmap string nat)
    (create_inventory : bool) (vendor_no : value) (st st' : state World)
    (e : exn) (h : string) :
  process_line_item send round2 row headers_map create_inventory vendor_no st
  = (Raise e, st') ->
  e <> missing_column h.
Proof.
  unfold process_line_item, missing_column.
  destruct (get_values row headers_map) as [[p|] [v|e0]].
  2, 4: unfold raise; intros H; injection H as <- <-; discriminate.
  all: destruct create_inventory; unfold mbind, M_bind, mret, M_ret;
    [|discriminate].
  all: destruct (item_exists send (lv_part_no v) st) as [[[]|ee] st1] eqn:He;
    cbn [negb]; try discriminate.
  all: try (intros [= <- <-] E; apply item_exists_error in He; rewrite E in He;
            discriminate He).
  all: destruct (negb (is_empty (lv_description v)));
    [unfold try_except; rewrite create_inventory_item_arity; unfold raise;
     intros H; injection H as <- <-; discriminate
    | discriminate].
Qed.

Lemma process_all_error (lines : list (list string)) (headers_map : gmap string nat)
    (create_inventory : bool) (vendor_no : value) (st st' : state World)
    (e : exn) (h : string) :
  process_all send round2 lines headers_map create_inventory vendor_no st = (Raise e, st') ->
  e <> missing_column h.
Proof.
  revert st. induction lines as [|line rest IH]; intros st; cbn [process_all];
    [discriminate|].
  unfold mbind, M_bind, mret, M_ret.
  destruct (process_line_item send round2 line headers_map create_inventory vendor_no st)
    as [[item|e1] st1] eqn:Hp.
  - destruct (process_all send round2 rest headers_map create_inventory vendor_no st1)
      as [[xs|e2] st2] eqn:Ha; [discriminate|].
    intros [= <- <-]. exact (IH _ Ha).
  - intros [= <- <-]. exact (process_line_item_error _ _ _ _ _ _ _ _ Hp).
Qed.

End Build.

Section Headers.
Context {World : Type} (send : request -> World -> outcome * World).
Context (round2 : float -> float).

(** C2.  When a required header is not among the uppercased names of the
    header row, the builder raises the error that names the first such
    header in the order the required headers are gone through, and the
    state is the one it started from: no data row has been processed and
    no request sent.  When every required header is there, the builder is
    the loop over the data rows, and no error it raises is that of a
    missing column. *)
Theorem missing_column_first (file : UploadFile) (headers : list string)
    (lines : list (list string)) (required : list string) (create_inventory : bool)
    (vendor_no : value) (st : state World) :
  rows file = headers :: lines ->
  (forall pre h post,
      required = (pre ++ h :: post)%list ->
      (forall r, In r pre -> In r (List.map upper headers)) ->
      ~ In h (List.map upper headers) ->
      create_payload send round2 file required create_inventory (Some vendor_no) st
      = (Raise (HTTPException 400 ("Missing " ++ h ++ " column")), st))
  /\ ((forall r, In r required -> In r (List.map upper headers)) ->
      create_payload send round2 file required create_inventory (Some vendor_no) st
      = (items ← payload_loop send round2 lines (build_headers_map 0 headers ∅)
                   create_inventory vendor_no [];
         mret (VDict [("items", VList items)])) st
      /\ forall e st' h,
           create_payload send round2 file required create_inventory (Some vendor_no) st
           = (Raise e, st') ->
           e <> HTTPException 400 ("Missing " ++ h ++ " column")).
Proof.
  intros Hr. split.
  - intros pre h post -> Hpre Hh. unfold create_payload. rewrite Hr.
    rewrite (check_required_missing _ pre post h).
    + reflexivity.
    + intros r Hin. apply headers_map_present, Hpre, Hin.
    + destruct (map_contains _ h) eqn:E; [|reflexivity].
      apply headers_map_present in E. contradiction.
  - intros Hh. split.
    + unfold create_payload. rewrite Hr.
      rewrite check_required_present
        by (intros r Hin; apply headers_map_present, Hh, Hin).
      reflexivity.
    + intros e st' h. rewrite (create_payload_rows _ _ _ _ _ _ _ _ _ Hr Hh).
      unfold mbind, M_bind, mret, M_ret.
      destruct (process_all _ _ _ _ _ _ st) as [[xs|e1] st1] eqn:Ha; [discriminate|].
      intros [= <- <-]. exact (process_all_error _ _ _ _ _ _ _ _ _ _ Ha).
Qed.

Lemma process_all_raises (row : list string) (lines : list (list string))
    (headers_map : gmap string nat) (create_inventory : bool) (vendor_no : value) :
  In row lines ->
  (forall st : state World, exists e st',
      process_line_item send round2 row headers_map create_inventory vendor_no st
      = (Raise e, st')) ->
  forall st, exists e st',
    process_all send round2 lines headers_map create_inventory vendor_no st = (Raise e, st').
Proof.
  intros Hin Hrow. induction lines as [|line rest IH]; [destruct Hin|].
  intros st. cbn [process_all]. unfold mbind, M_bind, mret, M_ret.
  destruct (process_line_item send round2 line headers_map create_inventory vendor_no st)
    as [[item|e] st1] eqn:Hp; [|eauto].
  destruct Hin as [->|Hin].
  - destruct (Hrow st) as (e & st' & He). rewrite He in Hp. discriminate Hp.
  - destruct (IH Hin st1) as (e & st' & ->). eauto.
Qed.

(** C3.  A row that has a cell under every recognised column of the header
    and whose quantity cell cleans to nothing is refused, whatever the
    flag, with the error that names the trimmed part number and the trimmed
    quantity, and with no effect; and the builder returns no payload for a
    file that has such a row among its rows with a non-empty cell: it ends
    in an exception. *)
Theorem invalid_quantity_refused (row : list string) (headers : list string)
    (part qty : string) (price description : option string) :
  let headers_map := build_headers_map 0 headers ∅ in
  cell row headers_map "PART NO" = Ok part ->
  cell row headers_map "ORDER QTY" = Ok qty ->
  optional_cell row headers_map "UNIT PRICE" = Ok price ->
  optional_cell row headers_map "DESCRIPTION" = Ok description ->
  clean_numeric qty = Ok None ->
  (forall create_inventory vendor_no (st : state World),
      process_line_item send round2 row headers_map create_inventory vendor_no st
      = (Raise (HTTPException 400
                  ("Error geting values for " ++ strip part ++ ": Invalid quantity: "
                   ++ strip qty)),
         st))
  /\ (forall file lines required create_inventory vendor_no (st : state World),
        rows file = headers :: lines ->
        In row lines -> any row = true ->
        exists e st',
          create_payload send round2 file required create_inventory (Some vendor_no) st
          = (Raise e, st')).
Proof.
  intros headers_map Hp Hq Hu Hd Hx.
  rewrite clean_numeric_cleaned in Hx. injection Hx as Hx.
  pose proof (get_values_cells _ _ _ _ _ _ Hp Hq Hu Hd) as Hg. rewrite Hx in Hg.
  assert (Hrow : forall create_inventory vendor_no (st : state World),
             process_line_item send round2 row headers_map create_inventory vendor_no st
             = (Raise (HTTPException 400
                         ("Error geting values for " ++ strip part
                          ++ ": Invalid quantity: " ++ strip qty)),
                st)).
  { intros ci vendor_no st.
    exact (process_line_item_values_error send round2 _ _ ci vendor_no st _ _ Hg). }
  split; [exact Hrow|].
  intros file lines required ci vendor_no st Hr Hin Hany.
  unfold create_payload. rewrite Hr. unfold mbind at 1, M_bind at 1, lift.
  destruct (check_required required (build_headers_map 0 headers ∅)) as [[]|e];
    [|eauto].
  unfold mbind, M_bind. rewrite payload_loop_process_all. unfold mbind, M_bind.
  destruct (process_all_raises row (List.filter any lines) headers_map ci vendor_no)
    with (st := st) as (e & st' & He).
  - apply filter_In. split; assumption.
  - intros st0. rewrite Hrow. eauto.
  - fold headers_map. rewrite He. eauto.
Qed.

(** C4.  The file with the header row PART NO, ORDER QTY, DESCRIPTION,
    UNIT PRICE and the one data row ABC123, 5, Bolt, $1.50: every payload
    the builder returns for it holds exactly one item, with warehouse "00",
    part number "ABC123", quantity 5, unit price 1.5 and description
    "Bolt"; and without the inventory flag the builder returns it, with no
    effect. *)
Theorem round_trip (name : option string) (create_inventory : bool) (vendor_no : value)
    (st : state World) :
  let file := {| filename := name;
                 rows := [["PART NO"; "ORDER QTY"; "DESCRIPTION"; "UNIT PRICE"];
                          ["ABC123"; "5"; "Bolt"; "$1.50"]] |} in
  let five := S754_finite false 5629499534213120 (-50) in
  let one_and_a_half := S754_finite false 6755399441055744 (-52) in
  let payload :=
    VDict [("items", VList [VDict [
      ("inventory", VDict [("whse", VStr "00"); ("partNo", VStr "ABC123")]);
      ("orderQty", VFloat five);
      ("unitPrice", VFloat one_and_a_half);
      ("description", VStr "Bolt")]])] in
  (exists q, float_value five = Some q /\ (q == 5)%Q)
  /\ (exists q, float_value one_and_a_half = Some q /\ (q == 3 # 2)%Q)
  /\ (forall p st',
        create_payload send round2 file required_headers create_inventory
          (Some vendor_no) st = (Ok p, st') ->
        p = payload)
  /\ create_payload send round2 file required_headers false (Some vendor_no) st
     = (Ok payload, st).
Proof.
  intros file five one_and_a_half payload.
  split; [|split; [|split]].
  - eexists. split; [reflexivity | vm_compute; reflexivity].
  - eexists. split; [reflexivity | vm_compute; reflexivity].
  - intros p st' H.
    rewrite (create_payload_rows send round2 file _ _ required_headers create_inventory
               vendor_no st eq_refl) in H
      by (intros r [<-|[<-|[]]]; cbn; tauto).
    unfold mbind, M_bind, mret, M_ret in H.
    destruct (process_all _ _ _ _ _ _ st) as [[items|e] st1] eqn:Ha; [|discriminate H].
    injection H as <- <-. apply process_all_processed in Ha.
    cbn [List.filter any existsb is_empty negb orb] in Ha.
    inversion Ha as [|? ? item xs ? st2 ? Hl Hrest]; subst.
    inversion Hrest; subst.
    apply process_line_item_returns in Hl as (q & v & Hg & ->).
    vm_compute in Hg. injection Hg as _ <-. reflexivity.
  - reflexivity.
Qed.

End Headers.

Lemma missing_column_first_witness :
  let file := {| filename := Some "po.csv";
                 rows := [["Part No"; "Description"]; ["ABC123"; "Bolt"]] |} in
  create_payload (answer_records []) (fun x => x) file ["PART NO"; "ORDER QTY"] true
    (Some VNone) initial
  = (Raise (HTTPException 400 "Missing ORDER QTY column"), initial).
Proof.
  intros file.
  apply (proj1 (missing_column_first (answer_records []) (fun x => x) file
                  ["Part No"; "Description"] [["ABC123"; "Bolt"]]
                  ["PART NO"; "ORDER QTY"] true VNone initial eq_refl)
           ["PART NO"] "ORDER QTY" [] eq_refl).
  - intros r [<-|[]]. cbn. tauto.
  - cbn. intros [H|[H|[]]]; discriminate H.
Defined.

Lemma invalid_quantity_refused_witness :
  let headers := ["PART NO"; "ORDER QTY"] in
  let row := ["ABC123"; ""] in
  process_line_item (answer_records []) (fun x => x) row (build_headers_map 0 headers ∅)
    true VNone initial
  = (Raise (HTTPException 400 "Error geting values for ABC123: Invalid quantity: "), initial)
  /\ exists e st',
       create_payload (answer_records []) (fun x => x)
         {| filename := Some "po.csv"; rows := [headers; ["XYZ"; "1"]; row] |}
         required_headers false (Some VNone) initial
       = (Raise e, st').
Proof.
  intros headers row.
  pose proof (invalid_quantity_refused (answer_records []) (fun x => x) row headers
                "ABC123" "" None None eq_refl eq_refl eq_refl eq_refl eq_refl) as [H1 H2].
  split.
  - exact (H1 true VNone initial).
  - apply (H2 {| filename := Some "po.csv"; rows := [headers; ["XYZ"; "1"]; row] |}
              [["XYZ"; "1"]; row] required_headers false VNone initial eq_refl).
    + right. left. reflexivity.
    + reflexivity.
Defined.

(** A row that is short of a unit price cell, with a quantity that cleans to
    nothing: the error reports the missing cell, not the quantity. *)
Lemma short_row_reports_index :
  let headers_map := build_headers_map 0 ["PART NO"; "ORDER QTY"; "UNIT PRICE"] ∅ in
  let row := ["ABC"; "n/a"] in
  any row = true
  /\ cell row headers_map "ORDER QTY" = Ok "n/a"
  /\ clean_numeric "n/a" = Ok None
  /\ process_line_item (answer_records []) (fun x => x) row headers_map false VNone initial
     = (Raise (HTTPException 400 "Error geting values for ABC: list index out of range"),
        initial).
Proof. repeat split; vm_compute; reflexivity. Qed.

Lemma round_trip_witness :
  let file := {| filename := Some "po.csv";
                 rows := [["PART NO"; "ORDER QTY"; "DESCRIPTION"; "UNIT PRICE"];
                          ["ABC123"; "5"; "Bolt"; "$1.50"]] |} in
  let payload :=
    VDict [("items", VList [VDict [
      ("inventory", VDict [("whse", VStr "00"); ("partNo", VStr "ABC123")]);
      ("orderQty", VFloat (S754_finite false 5629499534213120 (-50)));
      ("unitPrice", VFloat (S754_finite false 6755399441055744 (-52)));
      ("description", VStr "Bolt")]])] in
  create_payload (answer_records []) (fun x => x) file required_headers false
    (Some VNone) initial = (Ok payload, initial)
  /\ exists p st',
       create_payload (answer_records [VDict [("partNo", VStr "ABC123")]]) (fun x => x)
         file required_headers true (Some VNone) initial = (Ok p, st')
       /\ p = payload.
Proof.
  intros file payload. split.
  - exact (proj2 (proj2 (proj2 (round_trip (answer_records []) (fun x => x)
                                  (Some "po.csv") false VNone initial)))).
  - eexists _, _. split; [vm_compute; reflexivity|].
    apply (proj1 (proj2 (proj2 (round_trip
             (answer_records [VDict [("partNo", VStr "ABC123")]]) (fun x => x)
             (Some "po.csv") true VNone initial)))
             _ {| world := tt; stdout := []; sent := [exists_request "ABC123"] |}).
    vm_compute. reflexivity.
Defined.

Lemma rows_in_order_witness :
  let headers := ["Part No"; "Order Qty"] in
  let lines := [["A1"; "1"]; [""; ""]; ["B2"; "2"]] in
  exists items,
    VDict [("items", VList [line_item "A1" (float_of_decimal 1 0) None "";
                            line_item "B2" (float_of_decimal 2 0) None ""])]
    = VDict [("items", VList items)]
    /\ processed (answer_records []) (fun x => x) (build_headers_map 0 headers ∅) false
         VNone (List.filter any lines) items initial initial
    /\ length items = length (List.filter any lines).
Proof.
  intros headers lines.
  apply (proj1 (rows_in_order (answer_records []) (fun x => x)
                  {| filename := Some "po.csv"; rows := headers :: lines |}
                  headers lines required_headers false VNone initial initial _ eq_refl
                  ltac:(intros r [<-|[<-|[]]]; cbn; tauto))).
  reflexivity.
Defined.

(** * Further properties of the code *)

(** ** The PO number *)

Lemma concat_zeros_succ (k : nat) :
  String.concat "" (repeat "0" (S k)) = String "0" (String.concat "" (repeat "0" k)).
Proof. destruct k; reflexivity. Qed.

Lemma concat_zeros_length (k : nat) :
  String.length (String.concat "" (repeat "0" k)) = k.
Proof.
  induction k as [|k IH]; [reflexivity|].
  rewrite concat_zeros_succ. cbn [String.length]. now rewrite IH.
Qed.

Lemma zfill_length (s : string) (width : nat) :
  String.length (zfill s width) = Nat.max width (String.length s).
Proof.
  unfold zfill. destruct s as [|c s']; cbn [String.length].
  - rewrite concat_zeros_length. lia.
  - destruct ((code c =? 43)%N || (code c =? 45)%N); cbn [String.length];
      rewrite ?length_append, concat_zeros_length; cbn [String.length]; lia.
Qed.

Lemma zfill_long (s : string) (width : nat) :
  width <= String.length s -> zfill s width = s.
Proof.
  intros H. unfold zfill. replace (width - String.length s) with 0 by lia.
  destruct s as [|c s']; [reflexivity|].
  destruct ((code c =? 43)%N || (code c =? 45)%N); reflexivity.
Qed.

(** The number looked up is the input padded to ten characters, and never
    cut: an input of ten characters or more is looked up as it is.  The
    [po_number] returned is the input itself, and the padded number looks up
    the same order as the input. *)
Theorem process_po_number_padding (no : string) :
  let padded := zfill no 10 in
  po_number (process_po_number no) = no
  /\ po_url (process_po_number no)
     = purchasing_orders_query (format_json_filter (VDict [("number", VStr padded)]))
  /\ String.length padded = Nat.max 10 (String.length no)
  /\ (10 <= String.length no -> padded = no)
  /\ po_url (process_po_number padded) = po_url (process_po_number no).
Proof.
  intros padded. split; [reflexivity|]. split; [reflexivity|].
  split; [apply zfill_length|]. split; [apply zfill_long|].
  unfold process_po_number. cbn [po_url].
  rewrite (zfill_long padded 10); [reflexivity|].
  unfold padded. rewrite zfill_length. lia.
Qed.

(** ** The ERP calls *)

Section Calls.
Context {World : Type} (send : request -> World -> outcome * World).
Context (str_global : string -> string) (round2 : float -> float).

(** On a 200 answer [find_po] returns the first record and looks at no
    other, printing nothing; a body that is not JSON, or that has no
    "records", is an exception of its own, not the empty result. *)
Theorem find_po_first_record (u : url) (st : state World) (r : response) (w : World) :
  send (GET u) (world st) = (Answered r, w) ->
  status_code r = 200%Z ->
  (forall d po rest,
      body_json r = Some (VDict d) -> assoc "records" d = Some (VList (po :: rest)) ->
      find_po send str_global u st = (Ok po, after_request st (GET u) w))
  /\ (forall d,
        body_json r = Some (VDict d) -> assoc "records" d = None ->
        find_po send str_global u st
        = (Raise (KeyError "'records'"), after_request st (GET u) w))
  /\ (body_json r = None ->
      find_po send str_global u st
      = (Raise (JSONDecodeError "Expecting value: line 1 column 1 (char 0)"),
         after_request st (GET u) w)).
Proof.
  intros Hs H200. unfold find_po, requests, mbind, M_bind, lift, json.
  rewrite Hs, H200. cbn [Z.eqb Pos.eqb negb]. split; [|split].
  - intros d po rest Hj Hr. rewrite Hj. cbn [getitem_str]. rewrite Hr. reflexivity.
  - intros d Hj Hr. rewrite Hj. cbn [getitem_str]. rewrite Hr. reflexivity.
  - intros Hj. rewrite Hj. reflexivity.
Qed.

(** The form is refused with status 422, before any request, when the PO
    number is empty or the file has no name; and with status 404, after the
    one lookup and its notice, when the lookup finds no order. *)
Theorem upload_file_rejections (po_number : string) (file : UploadFile)
    (create_inventory : option bool) (st : state World) :
  (po_number = "" ->
   upload_file send str_global round2 po_number file create_inventory st
   = (Raise (HTTPException 422 "PO number is required"), st))
  /\ (po_number <> "" -> filename_truthy (filename file) = false ->
      upload_file send str_global round2 po_number file create_inventory st
      = (Raise (HTTPException 422 "File is required"), st))
  /\ (forall r w d,
        po_number <> "" -> filename_truthy (filename file) = true ->
        send (GET (po_url (process_po_number po_number))) (world st) = (Answered r, w) ->
        status_code r = 200%Z ->
        body_json r = Some (VDict d) -> assoc "records" d = Some (VList []) ->
        upload_file send str_global round2 po_number file create_inventory st
        = (Raise (HTTPException 404 "PO not found"),
           {| world := w;
              stdout := (stdout st
                         ++ ["No results found. Double-check the PO exists and is active"])%list;
              sent := (sent st ++ [GET (po_url (process_po_number po_number))])%list |})).
Proof.
  unfold upload_file. split; [|split].
  - intros ->. reflexivity.
  - intros Hp Hf. apply is_empty_false in Hp. rewrite Hp, Hf. reflexivity.
  - intros r w d Hp Hf Hs H200 Hj Hr. apply is_empty_false in Hp. rewrite Hp, Hf.
    cbn [negb]. unfold mbind at 1, M_bind at 1.
    unfold find_po, requests, mbind, M_bind, lift, json, print, mret, M_ret.
    rewrite Hs, H200. cbn [Z.eqb Pos.eqb negb]. rewrite Hj. cbn [getitem_str].
    rewrite Hr. reflexivity.
Qed.

(** The existence check says yes exactly on a 200 answer whose records are
    not the empty list; any other status is a no, whatever the body; a
    request that fails, or a 200 answer that is not JSON, is an exception. *)
Theorem item_exists_answer (part_no : string) (st : state World) :
  (forall r w,
      send (exists_request part_no) (world st) = (Answered r, w) ->
      (status_code r <> 200%Z ->
       item_exists send part_no st
       = (Ok false, after_send send (exists_request part_no) st))
      /\ (forall d records,
            status_code r = 200%Z -> body_json r = Some (VDict d) ->
            assoc "records" d = Some records ->
            item_exists send part_no st
            = (Ok (ne_empty_list records), after_send send (exists_request part_no) st))
      /\ (status_code r = 200%Z -> body_json r = None ->
          item_exists send part_no st
          = (Raise (JSONDecodeError "Expecting value: line 1 column 1 (char 0)"),
             after_send send (exists_request part_no) st)))
  /\ (forall msg w,
        send (exists_request part_no) (world st) = (Failed msg, w) ->
        item_exists send part_no st
        = (Raise (RequestException msg), after_send send (exists_request part_no) st)).
Proof.
  unfold item_exists, exists_request, after_send, requests, mbind, M_bind, lift, json,
    mret, M_ret.
  split.
  - intros r w Hs. rewrite Hs. cbn [snd]. split; [|split].
    + intros Hn. apply Z.eqb_neq in Hn. rewrite Hn. reflexivity.
    + intros d records H200 Hj Hr. rewrite H200. cbn [Z.eqb Pos.eqb]. rewrite Hj.
      cbn [getitem_str]. rewrite Hr. reflexivity.
    + intros H200 Hj. rewrite H200. cbn [Z.eqb Pos.eqb]. rewrite Hj. reflexivity.
  - intros msg w Hs. rewrite Hs. reflexivity.
Qed.


End Calls.

(** ** Signs and letter case *)

Section FloatSign.
Local Open Scope Z_scope.

Lemma shr_1_nonneg (mrs : shr_record) : 0 <= shr_m mrs -> 0 <= shr_m (shr_1 mrs).
Proof.
  destruct mrs as [m r s]. cbn [shr_m]. intros H.
  destruct m as [|[p|p|]|p]; cbn; lia.
Qed.

Lemma shr_nonneg (mrs : shr_record) (e n : Z) :
  0 <= shr_m mrs -> 0 <= shr_m (fst (shr mrs e n)).
Proof.
  intros H. destruct n as [|p|p]; cbn [shr fst]; try exact H.
  rewrite iter_pos_iter. apply Pos.iter_invariant; [|exact H].
  intros x Hx. now apply shr_1_nonneg.
Qed.

Lemma shr_fexp_nonneg (m e : Z) (l : location) :
  0 <= m -> 0 <= shr_m (fst (shr_fexp 53 1024 m e l)).
Proof.
  intros H. unfold shr_fexp. apply shr_nonneg.
  destruct l as [|[]]; exact H.
Qed.

Lemma round_nearest_even_nonneg (m : Z) (l : location) :
  0 <= m -> 0 <= round_nearest_even m l.
Proof.
  intros H. destruct l as [|[]]; cbn [round_nearest_even]; try lia.
  destruct (Z.even m); lia.
Qed.

Lemma binary_round_aux_nonnegative (m e : Z) (l : location) :
  0 <= m -> nonnegative (binary_round_aux 53 1024 false m e l) = true.
Proof.
  intros H. unfold binary_round_aux.
  pose proof (shr_fexp_nonneg m e l H) as H1.
  destruct (shr_fexp 53 1024 m e l) as [mrs' e'] eqn:E1. cbn [fst] in H1.
  pose proof (shr_fexp_nonneg _ e' loc_Exact
                (round_nearest_even_nonneg _ (loc_of_shr_record mrs') H1)) as H2.
  destruct (shr_fexp 53 1024 _ e' loc_Exact) as [mrs'' e''] eqn:E2. cbn [fst] in H2.
  destruct (shr_m mrs'') as [|p|p]; [reflexivity| |lia].
  destruct (e'' <=? 1024 - 53); reflexivity.
Qed.

Lemma binary64_of_ratio_nonnegative (p q : positive) :
  nonnegative (binary64_of_ratio p q) = true.
Proof.
  unfold binary64_of_ratio, SFdiv_core_binary.
  set (s := _ - _ - Z.min _ _).
  set (m' := match s with Z0 => Zpos p | Zpos _ => Z.shiftl (Zpos p) s | Zneg _ => 0 end).
  assert (Hm : 0 <= m').
  { unfold m'. destruct s; try lia. apply Z.shiftl_nonneg. lia. }
  pose proof (Z.div_pos m' (Zpos q) Hm ltac:(lia)) as Hq. unfold Z.div in Hq.
  destruct (Z.div_eucl m' (Zpos q)) as [d r]. cbn [fst] in Hq.
  now apply binary_round_aux_nonnegative.
Qed.

End FloatSign.

(** A minus sign before a number is dropped with the other characters, and
    what [clean_numeric] returns is never negative and never a NaN: a zero,
    a positive number or, for a numeral beyond the range of a float, plus
    infinity. *)
Theorem clean_numeric_nonnegative (s : string) :
  clean_numeric (String "-" s) = clean_numeric s
  /\ forall x, clean_numeric s = Ok (Some x) -> nonnegative x = true.
Proof.
  split; [rewrite !clean_numeric_parse; reflexivity|].
  intros x. rewrite clean_numeric_parse. unfold parse_cleaned.
  destruct (scan_decimal _ _ _ _ _) as [[m k]|]; [|discriminate].
  intros [= <-]. destruct m as [|p]; [reflexivity|].
  apply binary64_of_ratio_nonnegative.
Qed.

Lemma upper_app (a b : string) : upper (a ++ b) = upper a ++ upper b.
Proof.
  induction a as [|c a IH]; [reflexivity|].
  change (String c a ++ b) with (String c (a ++ b)). cbn [upper]. rewrite IH.
  generalize (upper a) (upper b). intros u v.
  destruct (upper_char c) as [|c1 [|c2 [|c3 t]]] eqn:E; try reflexivity.
  unfold upper_char in E.
  destruct (_ || _); [discriminate E|]. destruct (code c =? 223)%N; discriminate E.
Qed.

Lemma upper_char_fixed (c : ascii) : upper (upper_char c) = upper_char c.
Proof. destruct c as [[] [] [] [] [] [] [] []]; reflexivity. Qed.

Lemma upper_idempotent (s : string) : upper (upper s) = upper s.
Proof.
  induction s as [|c s IH]; [reflexivity|].
  cbn [upper]. now rewrite upper_app, upper_char_fixed, IH.
Qed.

Section Case.
Context {World : Type} (send : request -> World -> outcome * World).

(** The existence check does not see the case of the letters of a part
    number: part numbers with the same capitals are checked by the same
    request, with the same result, and so is a part number and its capitals. *)
Theorem item_exists_case_insensitive (part_no part_no' : string) (st : state World) :
  (upper part_no = upper part_no' ->
   exists_request part_no = exists_request part_no'
   /\ item_exists send part_no st = item_exists send part_no' st)
  /\ item_exists send (upper part_no) st = item_exists send part_no st.
Proof.
  split.
  - intros H. unfold item_exists, exists_request. rewrite H. split; reflexivity.
  - unfold item_exists. rewrite upper_idempotent. reflexivity.
Qed.

End Case.

(** ** Rows *)

Lemma cell_strip (row row' : list string) (headers_map : gmap string nat) (key : string) :
  Forall2 (fun a b => strip a = strip b) row row' ->
  (exists e, cell row headers_map key = Raise e /\ cell row' headers_map key = Raise e)
  \/ (exists a b, cell row headers_map key = Ok a /\ cell row' headers_map key = Ok b
                  /\ strip a = strip b).
Proof.
  intros HF. unfold cell, map_getitem.
  destruct (headers_map !! key) as [i|]; cbn [mbind result_bind]; [|left; eauto].
  unfold row_getitem. destruct (row !! i) as [a|] eqn:Ha.
  - destruct (Forall2_lookup_l _ _ _ _ _ HF Ha) as (b & Hb & Hs). rewrite Hb.
    right. eauto.
  - destruct (row' !! i) as [b|] eqn:Hb; [|left; eauto].
    destruct (Forall2_lookup_r _ _ _ _ _ HF Hb) as (a & Ha' & _). congruence.
Qed.

(** The values read from a row depend on its cells only up to the
    whitespace around them. *)
Lemma get_values_strip (row row' : list string) (headers_map : gmap string nat) :
  Forall2 (fun a b => strip a = strip b) row row' ->
  get_values row headers_map = get_values row' headers_map.
Proof.
  intros HF. unfold get_values.
  destruct (cell_strip _ _ headers_map "PART NO" HF)
    as [(e & -> & ->)|(a & b & -> & -> & ->)]; [reflexivity|].
  f_equal.
  destruct (cell_strip _ _ headers_map "ORDER QTY" HF)
    as [(e & -> & ->)|(a1 & b1 & -> & -> & H1)]; [reflexivity|].
  cbn [mbind result_bind]. cbv zeta. rewrite H1.
  destruct (cell_strip _ _ headers_map "UNIT PRICE" HF)
    as [(e & -> & ->)|(a2 & b2 & -> & -> & H2)];
    destruct (cell_strip _ _ headers_map "DESCRIPTION" HF)
      as [(e' & -> & ->)|(a3 & b3 & -> & -> & H3)];
    cbn [mbind result_bind]; rewrite ?H2, ?H3; reflexivity.
Qed.

Section RowProperties.
Context {World : Type} (send : request -> World -> outcome * World).
Context (round2 : float -> float).

(** Whitespace around the cells of a row changes nothing: two rows whose
    cells are the same once trimmed are processed alike, with the same
    result, requests and printed lines. *)
Theorem process_line_item_whitespace (row row' : list string)
    (headers_map : gmap string nat) (create_inventory : bool) (vendor_no : value)
    (st : state World) :
  Forall2 (fun a b => strip a = strip b) row row' ->
  process_line_item send round2 row headers_map create_inventory vendor_no st
  = process_line_item send round2 row' headers_map create_inventory vendor_no st.
Proof.
  intros HF. unfold process_line_item. now rewrite (get_values_strip _ _ _ HF).
Qed.

(** A row too short to have a cell under PART NO is not refused with the
    error of its values: the handler formats the part number the row never
    gave, and the exception is [UnboundLocalError], with no request sent. *)
Theorem process_line_item_no_part_cell (row : list string)
    (headers_map : gmap string nat) (i : nat) (create_inventory : bool)
    (vendor_no : value) (st : state World) :
  headers_map !! "PART NO" = Some i ->
  length row <= i ->
  exists msg,
    process_line_item send round2 row headers_map create_inventory vendor_no st
    = (Raise (UnboundLocalError msg), st).
Proof.
  intros Hm Hl. unfold process_line_item, get_values, cell, map_getitem.
  rewrite Hm. cbn [mbind result_bind]. unfold row_getitem.
  rewrite (lookup_ge_None_2 row i) by lia. eexists. reflexivity.
Qed.

(** With the inventory flag set, a part the check finds is processed with
    that one request and nothing printed; an exception of the check itself
    is raised as it is, not as an error of the row. *)
Theorem process_line_item_checked (row : list string) (headers_map : gmap string nat)
    (vendor_no : value) (st : state World) (p : option string) (v : line_values) :
  get_values row headers_map = (p, Ok v) ->
  (forall st1,
      item_exists send (lv_part_no v) st = (Ok true, st1) ->
      st1 = after_send send (exists_request (lv_part_no v)) st
      /\ process_line_item send round2 row headers_map true vendor_no st
         = (Ok (item_of v), st1))
  /\ (forall e st1,
        item_exists send (lv_part_no v) st = (Raise e, st1) ->
        process_line_item send round2 row headers_map true vendor_no st = (Raise e, st1)).
Proof.
  intros Hg. split.
  - intros st1 He. split; [exact (item_exists_effect send _ _ _ _ He)|].
    unfold process_line_item. rewrite Hg.
    destruct p; unfold mbind, M_bind; rewrite He; cbn [negb];
      rewrite <- item_of_setitem; reflexivity.
  - intros e st1 He. unfold process_line_item. rewrite Hg.
    destruct p; unfold mbind, M_bind; rewrite He; reflexivity.
Qed.

(** The inventory flag bears on requests and errors only: an item returned
    with the flag set is the item returned without it, and without it
    nothing is sent or printed. *)
Theorem process_line_item_flag (row : list string) (headers_map : gmap string nat)
    (vendor_no vendor_no' : value) (st st' st0 : state World) (item : value) :
  process_line_item send round2 row headers_map true vendor_no st = (Ok item, st') ->
  process_line_item send round2 row headers_map false vendor_no' st0 = (Ok item, st0).
Proof.
  intros H. apply process_line_item_returns in H as (p & v & Hg & ->).
  exact (process_line_item_plain send round2 _ _ vendor_no' st0 _ _ Hg).
Qed.

End RowProperties.

(** ** The header map and the payload *)

Lemma build_headers_map_snoc (headers : list string) (h : string) (n : nat)
    (m : gmap string nat) :
  build_headers_map n (headers ++ [h]) m
  = <[upper h := n + length headers]> (build_headers_map n headers m).
Proof.
  revert n m. induction headers as [|h0 rest IH]; intros n m; cbn [app build_headers_map].
  - now rewrite Nat.add_0_r.
  - rewrite IH. cbn [length]. now rewrite Nat.add_succ_comm.
Qed.

(** When columns share a name, capitals apart, the last of them is the one
    the map holds: a name is mapped to an index exactly when the header at
    that index has the name and no header after it has. *)
Theorem headers_map_last_wins (headers : list string) (key : string) (i : nat) :
  build_headers_map 0 headers ∅ !! key = Some i
  <-> (exists h, headers !! i = Some h /\ upper h = key)
      /\ (forall j h', i < j -> headers !! j = Some h' -> upper h' <> key).
Proof.
  revert i. induction headers as [|h l IH] using rev_ind; intros i.
  - cbn [build_headers_map]. rewrite lookup_empty. split; [discriminate|].
    intros [(h & Hh & _) _]. discriminate Hh.
  - rewrite build_headers_map_snoc, lookup_insert. cbn [Nat.add].
    destruct (decide (upper h = key)) as [E|E].
    + split.
      * intros [= <-]. split.
        -- exists h. split; [|exact E]. rewrite lookup_app, lookup_ge_None_2 by lia.
           now rewrite Nat.sub_diag.
        -- intros j h' Hj Hl. rewrite lookup_app, lookup_ge_None_2 in Hl by lia.
           destruct (j - length l) as [|d] eqn:Ed; [lia|]. discriminate Hl.
      * intros [(h0 & Hh & Hu) Hlast]. f_equal.
        destruct (Nat.lt_trichotomy i (length l)) as [Hlt|[Heq|Hgt]]; [|congruence|].
        -- exfalso. apply (Hlast (length l) h Hlt); [|exact E].
           rewrite lookup_app, lookup_ge_None_2 by lia. now rewrite Nat.sub_diag.
        -- rewrite lookup_app, lookup_ge_None_2 in Hh by lia.
           destruct (i - length l) as [|d] eqn:Ed; [lia|]. discriminate Hh.
    + rewrite IH. split.
      * intros [(h0 & Hh & Hu) Hlast]. split.
        -- exists h0. split; [|exact Hu]. rewrite lookup_app, Hh. reflexivity.
        -- intros j h' Hj Hl. rewrite lookup_app in Hl.
           destruct (l !! j) as [x|] eqn:Hx.
           ++ injection Hl as ->. exact (Hlast j h' Hj Hx).
           ++ destruct (j - length l) as [|d]; [|discriminate Hl].
              injection Hl as <-. exact E.
      * intros [(h0 & Hh & Hu) Hlast]. rewrite lookup_app in Hh.
        destruct (l !! i) as [x|] eqn:Hx.
        -- injection Hh as ->. split; [eauto|].
           intros j h' Hj Hl. apply (Hlast j h' Hj). rewrite lookup_app, Hl. reflexivity.
        -- destruct (i - length l) as [|d]; [|discriminate Hh].
           injection Hh as ->. contradiction.
Qed.

Lemma filter_any_empty (lines : list (list string)) :
  Forall (fun line => Forall (fun c => c = "") line) lines -> List.filter any lines = [].
Proof.
  induction 1 as [|line rest Hl _ IH]; [reflexivity|].
  cbn [List.filter]. apply any_false in Hl. now rewrite Hl.
Qed.

Section PayloadProperties.
Context {World : Type} (send : request -> World -> outcome * World).
Context (round2 : float -> float).

(** A file with no row at all ends the builder in [StopIteration]; a file
    with its header row and, after it, nothing but rows of empty cells gives
    the payload with no item, and no effect. *)
Theorem create_payload_no_rows (file : UploadFile) (required : list string)
    (create_inventory : bool) (vendor_no : value) (st : state World) :
  (rows file = [] ->
   create_payload send round2 file required create_inventory (Some vendor_no) st
   = (Raise StopIteration, st))
  /\ (forall headers lines,
        rows file = headers :: lines ->
        (forall r, In r required -> In r (List.map upper headers)) ->
        Forall (fun line => Forall (fun c => c = "") line) lines ->
        create_payload send round2 file required create_inventory (Some vendor_no) st
        = (Ok (VDict [("items", VList [])]), st)).
Proof.
  split.
  - intros Hr. unfold create_payload. rewrite Hr. reflexivity.
  - intros headers lines Hr Hh Hl.
    rewrite (create_payload_rows send round2 _ _ _ _ _ _ _ Hr Hh).
    rewrite (filter_any_empty _ Hl). reflexivity.
Qed.

Lemma process_line_item_no_flag (row : list string) (headers_map : gmap string nat)
    (vendor_no : value) (st : state World) :
  snd (process_line_item send round2 row headers_map false vendor_no st) = st.
Proof.
  unfold process_line_item.
  destruct (get_values row headers_map) as [[p|] [v|e]]; reflexivity.
Qed.

Lemma process_all_no_flag (lines : list (list string)) (headers_map : gmap string nat)
    (vendor_no : value) (st : state World) :
  snd (process_all send round2 lines headers_map false vendor_no st) = st.
Proof.
  induction lines as [|line rest IH]; cbn [process_all]; [reflexivity|].
  unfold mbind, M_bind, mret, M_ret.
  pose proof (process_line_item_no_flag line headers_map vendor_no st) as H1.
  destruct (process_line_item send round2 line headers_map false vendor_no st)
    as [[item|e] st1]; cbn [snd] in H1; subst st1; [|reflexivity].
  destruct (process_all send round2 rest headers_map false vendor_no st)
    as [[xs|e] st2]; cbn [snd] in *; now subst st2.
Qed.

Lemma process_line_item_sent (row : list string) (headers_map : gmap string nat)
    (create_inventory : bool) (vendor_no : value) (st : state World) :
  let st' := snd (process_line_item send round2 row headers_map create_inventory
                    vendor_no st) in
  sent st' = sent st
  \/ exists part_no, sent st' = (sent st ++ [exists_request part_no])%list.
Proof.
  unfold process_line_item.
  destruct (get_values row headers_map) as [[p|] [v|e]];
    try (left; reflexivity).
  all: destruct create_inventory; [|left; reflexivity].
  all: right; exists (lv_part_no v); unfold mbind, M_bind.
  all: destruct (item_exists send (lv_part_no v) st) as [[[]|e] st1] eqn:He;
    apply item_exists_effect in He; subst st1; cbn [negb]; try reflexivity.
  all: destruct (negb (is_empty (lv_description v)));
    [unfold try_except; rewrite create_inventory_item_arity|]; reflexivity.
Qed.

Lemma process_all_sent (lines : list (list string)) (headers_map : gmap string nat)
    (create_inventory : bool) (vendor_no : value) (st : state World) :
  exists parts,
    sent (snd (process_all send round2 lines headers_map create_inventory vendor_no st))
    = (sent st ++ List.map exists_request parts)%list
    /\ length parts <= length lines.
Proof.
  revert st. induction lines as [|line rest IH]; intros st; cbn [process_all].
  - exists []. cbn. now rewrite app_nil_r.
  - unfold mbind, M_bind, mret, M_ret.
    pose proof (process_line_item_sent line headers_map create_inventory vendor_no st) as H1.
    destruct (process_line_item send round2 line headers_map create_inventory vendor_no st)
      as [[item|e] st1]; cbn [snd] in H1.
    + destruct (IH st1) as (parts & IH2 & IH3).
      destruct (process_all send round2 rest headers_map create_inventory vendor_no st1)
        as [[xs|e] st2]; cbn [snd] in *.
      all: destruct H1 as [H1|(q & H1)]; rewrite H1 in IH2.
      1, 3: exists parts; (split; [exact IH2 | cbn [length]; lia]).
      all: exists (q :: parts); cbn [List.map length];
        rewrite IH2, <- app_assoc; (split; [reflexivity | lia]).
    + cbn [snd]. destruct H1 as [H1|(q & H1)].
      * exists []. cbn [List.map length]. rewrite H1, app_nil_r. split; [reflexivity | lia].
      * exists [q]. cbn [List.map length]. rewrite H1. split; [reflexivity | lia].
Qed.

(** Without the inventory flag the builder sends nothing and prints
    nothing, whatever the file and however it ends. *)
Theorem create_payload_no_flag (file : UploadFile) (required : list string)
    (vendor_no : option value) (st : state World) :
  snd (create_payload send round2 file required false vendor_no st) = st.
Proof.
  unfold create_payload. destruct vendor_no as [v|]; [|reflexivity].
  destruct (rows file) as [|headers lines]; [reflexivity|].
  unfold mbind at 1, M_bind at 1, lift.
  destruct (check_required required _) as [[]|e]; [|reflexivity].
  unfold mbind, M_bind. rewrite payload_loop_process_all. unfold mbind, M_bind, mret, M_ret.
  pose proof (process_all_no_flag (List.filter any lines) (build_headers_map 0 headers ∅)
                v st) as H.
  destruct (process_all _ _ _ _ _ _ st) as [[xs|e] st1]; exact H.
Qed.

(** Whatever the flag and the file, the requests of the builder are
    existence checks, at most one for each row with a non-empty cell: it
    never sends a creation request, nor any other. *)
Theorem create_payload_only_checks (file : UploadFile) (required : list string)
    (create_inventory : bool) (vendor_no : option value) (st : state World) :
  exists parts,
    sent (snd (create_payload send round2 file required create_inventory vendor_no st))
    = (sent st ++ List.map exists_request parts)%list
    /\ length parts <= length (List.filter any (List.tl (rows file))).
Proof.
  assert (H0 : exists parts : list string,
             sent st = (sent st ++ List.map exists_request parts)%list
             /\ length parts <= length (List.filter any (List.tl (rows file)))).
  { exists []. cbn. rewrite app_nil_r. split; [reflexivity | lia]. }
  unfold create_payload. destruct vendor_no as [v|]; [|exact H0].
  destruct (rows file) as [|headers lines]; [exact H0|]. cbn [List.tl] in *.
  unfold mbind at 1, M_bind at 1, lift.
  destruct (check_required required _) as [[]|e]; [|exact H0].
  unfold mbind, M_bind. rewrite payload_loop_process_all. unfold mbind, M_bind, mret, M_ret.
  destruct (process_all_sent (List.filter any lines) (build_headers_map 0 headers ∅)
              create_inventory v st) as (parts & H1 & H2).
  exists parts.
  destruct (process_all _ _ _ _ _ _ st) as [[xs|e] st1]; split; assumption.
Qed.

Lemma process_all_app (before after : list (list string)) (headers_map : gmap string nat)
    (create_inventory : bool) (vendor_no : value) (st : state World) :
  process_all send round2 (before ++ after) headers_map create_inventory vendor_no st
  = (xs ← process_all send round2 before headers_map create_inventory vendor_no;
     ys ← process_all send round2 after headers_map create_inventory vendor_no;
     mret (xs ++ ys)%list) st.
Proof.
  revert st. induction before as [|line rest IH]; intros st; cbn [app process_all].
  - unfold mbind, M_bind, mret, M_ret.
    destruct (process_all send round2 after _ _ _ st) as [[ys|e] st1]; reflexivity.
  - unfold mbind, M_bind, mret, M_ret.
    destruct (process_line_item send round2 line headers_map create_inventory vendor_no st)
      as [[item|e] st1]; [|reflexivity].
    rewrite IH. unfold mbind, M_bind, mret, M_ret.
    destruct (process_all send round2 rest _ _ _ st1) as [[xs|e] st2]; [|reflexivity].
    destruct (process_all send round2 after _ _ _ st2) as [[ys|e] st3]; reflexivity.
Qed.

(** The builder stops at the first row that fails: once the rows before it
    are processed, its exception is the exception of the builder, its state
    the state the builder ends in, and the rows after it are not looked at. *)
Theorem create_payload_first_error (file : UploadFile) (headers : list string)
    (before after : list (list string)) (row : list string) (required : list string)
    (create_inventory : bool) (vendor_no : value) (items : list value)
    (st st1 st2 : state World) (e : exn) :
  rows file = headers :: (before ++ row :: after)%list ->
  (forall r, In r required -> In r (List.map upper headers)) ->
  processed send round2 (build_headers_map 0 headers ∅) create_inventory vendor_no
    (List.filter any before) items st st1 ->
  any row = true ->
  process_line_item send round2 row (build_headers_map 0 headers ∅) create_inventory
    vendor_no st1 = (Raise e, st2) ->
  create_payload send round2 file required create_inventory (Some vendor_no) st
  = (Raise e, st2).
Proof.
  intros Hr Hh Hp Hany He.
  rewrite (create_payload_rows send round2 _ _ _ _ _ _ _ Hr Hh).
  rewrite List.filter_app. cbn [List.filter]. rewrite Hany.
  unfold mbind at 1, M_bind at 1. rewrite process_all_app.
  apply process_all_processed in Hp.
  unfold mbind at 1, M_bind at 1. rewrite Hp. cbn [process_all].
  unfold mbind, M_bind. rewrite He. reflexivity.
Qed.

End PayloadProperties.

(** ** The text of a filter *)

Lemma all_chars_app (p : ascii -> bool) (a b : string) :
  all_chars p (a ++ b) = all_chars p a && all_chars p b.
Proof.
  induction a as [|c a IH]; [reflexivity|].
  change (String c a ++ b) with (String c (a ++ b)). cbn [all_chars].
  now rewrite IH, andb_assoc.
Qed.

Lemma quote_plus_char_safe (c : ascii) : all_chars query_safe (quote_plus_char c) = true.
Proof. destruct c as [[] [] [] [] [] [] [] []]; reflexivity. Qed.

Lemma quote_plus_safe (s : string) : all_chars query_safe (quote_plus s) = true.
Proof.
  induction s as [|c s IH]; [reflexivity|].
  cbn [quote_plus]. now rewrite all_chars_app, quote_plus_char_safe, IH.
Qed.

(** Whatever the strings of a filter, its text is made of letters, digits
    and the signs - . _ ~ = + and percent: no character of a part number or
    PO number reaches the query string unescaped. *)
Theorem format_json_filter_text_safe (d : list (string * string)) :
  all_chars query_safe (format_json_filter_text d) = true.
Proof.
  unfold format_json_filter_text. rewrite all_chars_app, quote_plus_safe. reflexivity.
Qed.

Lemma append_assoc (a b c : string) : (a ++ b) ++ c = a ++ (b ++ c).
Proof.
  induction a as [|x a IH]; [reflexivity|].
  change (String x ((a ++ b) ++ c) = String x (a ++ (b ++ c))). now rewrite IH.
Qed.

Lemma read_quoted_char (c : ascii) (r : string) :
  read_quoted (quote_plus_char c ++ r) = option_map (String c) (read_quoted r).
Proof. destruct c as [[] [] [] [] [] [] [] []]; reflexivity. Qed.

Lemma read_quoted_quote_plus (s : string) : read_quoted (quote_plus s) = Some s.
Proof.
  induction s as [|c s IH]; [reflexivity|].
  cbn [quote_plus]. now rewrite read_quoted_char, IH.
Qed.

Lemma read_json_escape (c : ascii) (r : string) :
  read_json_string (json_escape c ++ r) = push c (read_json_string r).
Proof. destruct c as [[] [] [] [] [] [] [] []]; reflexivity. Qed.

Lemma read_json_escape_string (s t : string) :
  read_json_string (json_escape_string s ++ String quote_mark t) = Some (s, t).
Proof.
  induction s as [|c s IH]; [reflexivity|].
  cbn [json_escape_string]. now rewrite append_assoc, read_json_escape, IH.
Qed.

Lemma json_dumps_items_cons (k v : string) (rest : list (string * string)) (x : string) :
  json_dumps_items ((k, v) :: rest) ++ x
  = String quote_mark
      (json_escape_string k
       ++ String quote_mark
            (String ":" (String " " (String quote_mark
               (json_escape_string v
                ++ String quote_mark
                     (match rest with
                      | [] => x
                      | _ :: _ => String "," (String " " (json_dumps_items rest ++ x))
                      end)))))).
Proof.
  cbn [json_dumps_items]. unfold json_dumps_str.
  change (String quote_mark (json_escape_string k ++ String quote_mark "")
          ++ ": " ++ String quote_mark (json_escape_string v ++ String quote_mark "")
          ++ match rest with [] => "" | _ :: _ => ", " ++ json_dumps_items rest end)
    with (String quote_mark
            ((json_escape_string k ++ String quote_mark "")
             ++ String ":" (String " " (String quote_mark
                  ((json_escape_string v ++ String quote_mark "")
                   ++ match rest with [] => "" | _ :: _ => ", " ++ json_dumps_items rest end))))).
  change (String quote_mark ?a ++ x) with (String quote_mark (a ++ x)).
  f_equal. rewrite !append_assoc. f_equal.
  change (String quote_mark "" ++ ?a) with (String quote_mark a).
  f_equal.
  change ((String ":" (String " " (String quote_mark ?a))) ++ x)
    with (String ":" (String " " (String quote_mark (a ++ x)))).
  do 3 f_equal. rewrite !append_assoc. f_equal.
  change (String quote_mark "" ++ ?a) with (String quote_mark a).
  f_equal. destruct rest; [reflexivity|].
  rewrite append_assoc. reflexivity.
Qed.

Lemma json_dumps_items_inj (d d' : list (string * string)) (t t' : string) :
  json_dumps_items d ++ String "}" t = json_dumps_items d' ++ String "}" t' -> d = d'.
Proof.
  revert d' t t'. induction d as [|[k v] rest IH]; intros [|[k' v'] rest'] t t'.
  - reflexivity.
  - rewrite json_dumps_items_cons. intros H. discriminate H.
  - rewrite json_dumps_items_cons. intros H. discriminate H.
  - rewrite !json_dumps_items_cons. intros H. injection H as H.
    apply (f_equal read_json_string) in H. rewrite !read_json_escape_string in H.
    injection H as -> H.
    apply (f_equal read_json_string) in H. rewrite !read_json_escape_string in H.
    injection H as -> H.
    destruct rest as [|kv rest], rest' as [|kv' rest'].
    + reflexivity.
    + discriminate H.
    + discriminate H.
    + injection H as H. now rewrite (IH (kv' :: rest') t t' H).
Qed.

Lemma append_inv_head (a b c : string) : a ++ b = a ++ c -> b = c.
Proof.
  induction a as [|x a IH]; [trivial|].
  change (String x (a ++ b) = String x (a ++ c) -> b = c). intros [= H]. exact (IH H).
Qed.

Lemma format_json_filter_text_inj (d d' : list (string * string)) :
  format_json_filter_text d = format_json_filter_text d' -> d = d'.
Proof.
  unfold format_json_filter_text. intros H. apply append_inv_head in H.
  apply (f_equal read_quoted) in H. rewrite !read_quoted_quote_plus in H.
  injection H as H. unfold json_dumps_dict in H. apply append_inv_head in H.
  exact (json_dumps_items_inj _ _ _ _ H).
Qed.

Lemma str_dict_inj (d d' : list (string * string)) : str_dict d = str_dict d' -> d = d'.
Proof.
  unfold str_dict. intros [= H]. revert d' H.
  induction d as [|[k v] d IH]; intros [|[k' v'] d'] H; try discriminate H.
  - reflexivity.
  - cbn in H. injection H as -> -> H. now rewrite (IH d' H).
Qed.

(** The text of a filter stands for one filter only: two dicts of strings
    have the same filter text exactly when they are the same dict, so that
    requests the program builds differ exactly when their texts do. *)
Theorem filter_text_determines_filter (d d' : list (string * string)) :
  format_json_filter_text d = format_json_filter_text d'
  <-> format_json_filter (str_dict d) = format_json_filter (str_dict d').
Proof.
  split.
  - intros H. now rewrite (format_json_filter_text_inj d d' H).
  - intros H. f_equal. apply str_dict_inj. unfold format_json_filter in H. congruence.
Qed.

(** ** Short rows and the order of the required headers *)

(** The order in which the required headers are gone through bears only on
    which missing header is named: the check passes exactly when every one
    of them is in the map, and its error is the error of one that is not. *)
Theorem check_required_any_order (required : list string) (headers_map : gmap string nat) :
  (check_required required headers_map = Ok tt
   <-> forall h, In h required -> map_contains headers_map h = true)
  /\ (forall e,
        check_required required headers_map = Raise e ->
        exists h, In h required /\ map_contains headers_map h = false
                  /\ e = HTTPException 400 ("Missing " ++ h ++ " column")).
Proof.
  induction required as [|r rest [IH1 IH2]]; cbn [check_required In].
  - split; [split; [intros _ h [] | reflexivity] | discriminate].
  - destruct (map_contains headers_map r) eqn:Hr; cbn [negb].
    + split.
      * rewrite IH1. split; [intros H h [<-|Hin]; auto | auto].
      * intros e He. destruct (IH2 e He) as (h & Hin & Hh & ->). eauto 6.
    + split.
      * split; [discriminate|]. intros H. rewrite (H r (or_introl eq_refl)) in Hr.
        discriminate Hr.
      * intros e [= <-]. eauto 6.
Qed.

Section ShortRows.
Context {World : Type} (send : request -> World -> outcome * World).
Context (round2 : float -> float).

(** A column the header names is owed by every row: a row with its part
    number and quantity, but too short to have a cell under a UNIT PRICE or
    DESCRIPTION column of the header, is refused with the index error, and
    no request is sent. *)
Theorem process_line_item_short_row (row : list string) (headers_map : gmap string nat)
    (key part qty : string) (i : nat) (create_inventory : bool) (vendor_no : value)
    (st : state World) :
  key = "UNIT PRICE" \/ key = "DESCRIPTION" ->
  headers_map !! key = Some i ->
  length row <= i ->
  cell row headers_map "PART NO" = Ok part ->
  cell row headers_map "ORDER QTY" = Ok qty ->
  process_line_item send round2 row headers_map create_inventory vendor_no st
  = (Raise (HTTPException 400
              ("Error geting values for " ++ strip part ++ ": list index out of range")),
     st).
Proof.
  intros Hkey Hm Hl Hp Hq.
  assert (Hc : cell row headers_map key = Raise (IndexError "list index out of range")).
  { unfold cell, map_getitem. rewrite Hm. cbn [mbind result_bind]. unfold row_getitem.
    now rewrite (lookup_ge_None_2 row i) by lia. }
  assert (Hin : map_contains headers_map key = true).
  { unfold map_contains. now rewrite Hm. }
  assert (Hany : forall k, exists r,
             cell row headers_map k = r
             /\ (map_contains headers_map k = true ->
                 r = Raise (IndexError "list index out of range") \/ exists c, r = Ok c)).
  { intros k. eexists. split; [reflexivity|]. unfold map_contains, cell, map_getitem.
    destruct (headers_map !! k) as [j|]; [|discriminate]. intros _.
    cbn [mbind result_bind]. unfold row_getitem. destruct (row !! j); eauto. }
  apply (process_line_item_values_error send round2 row headers_map create_inventory
           vendor_no st (strip part) (IndexError "list index out of range")).
  unfold get_values. rewrite Hp, Hq. f_equal. cbn [mbind result_bind].
  destruct Hkey as [->| ->].
  - rewrite Hin, Hc. reflexivity.
  - rewrite Hin, Hc.
    destruct (Hany "UNIT PRICE") as (r & Hr & Hcase). rewrite Hr.
    destruct (map_contains headers_map "UNIT PRICE"); [|reflexivity].
    destruct (Hcase eq_refl) as [->|(c & ->)]; reflexivity.
Qed.

End ShortRows.

(** ** Instances *)

Lemma find_po_first_record_witness :
  let u := po_url (process_po_number "123") in
  let records := [VDict [("id", VInt 7)]; VDict [("id", VInt 8)]] in
  find_po (answer_records records) (fun _ => "") u initial
  = (Ok (VDict [("id", VInt 7)]), {| world := tt; stdout := []; sent := [GET u] |}).
Proof.
  intros u records.
  exact (proj1 (find_po_first_record (answer_records records) (fun _ => "") u initial
                  _ tt eq_refl eq_refl)
           _ _ _ eq_refl eq_refl).
Defined.

Lemma upload_file_rejections_witness :
  let file := {| filename := Some "po.csv"; rows := [["PART NO"; "ORDER QTY"]] |} in
  upload_file (answer_records []) (fun _ => "") (fun x => x) "123" file (Some true) initial
  = (Raise (HTTPException 404 "PO not found"),
     {| world := tt;
        stdout := ["No results found. Double-check the PO exists and is active"];
        sent := [GET (po_url (process_po_number "123"))] |}).
Proof.
  intros file.
  exact (proj2 (proj2 (upload_file_rejections (answer_records []) (fun _ => "")
                         (fun x => x) "123" file (Some true) initial))
           _ tt _ ltac:(discriminate) eq_refl eq_refl eq_refl eq_refl eq_refl).
Defined.

Lemma item_exists_answer_witness :
  item_exists (answer_status 404) "ABC123" initial
  = (Ok false, {| world := tt; stdout := []; sent := [exists_request "ABC123"] |})
  /\ item_exists (answer_records [VDict [("partNo", VStr "ABC123")]]) "ABC123" initial
     = (Ok true, {| world := tt; stdout := []; sent := [exists_request "ABC123"] |}).
Proof.
  split.
  - exact (proj1 (proj1 (item_exists_answer (answer_status 404) "ABC123" initial)
                    _ tt eq_refl) ltac:(discriminate)).
  - exact (proj1 (proj2 (proj1 (item_exists_answer
                     (answer_records [VDict [("partNo", VStr "ABC123")]]) "ABC123" initial)
                    _ tt eq_refl)) _ _ eq_refl eq_refl eq_refl).
Defined.

Lemma item_exists_case_insensitive_witness :
  exists_request "abc-1" = exists_request "ABC-1"
  /\ item_exists (answer_records []) "abc-1" initial
     = item_exists (answer_records []) "ABC-1" initial.
Proof.
  exact (proj1 (item_exists_case_insensitive (answer_records []) "abc-1" "ABC-1" initial)
           eq_refl).
Defined.


Lemma clean_numeric_nonnegative_witness :
  clean_numeric "-3" = Ok (Some (float_of_decimal 3 0))
  /\ nonnegative (float_of_decimal 3 0) = true.
Proof.
  split; [reflexivity|].
  exact (proj2 (clean_numeric_nonnegative "-3") _ eq_refl).
Defined.

Lemma process_line_item_whitespace_witness :
  let headers_map := build_headers_map 0 ["PART NO"; "ORDER QTY"] ∅ in
  process_line_item (answer_records []) (fun x => x) [" ABC123 "; "5 "] headers_map
    false VNone initial
  = process_line_item (answer_records []) (fun x => x) ["ABC123"; "5"] headers_map
      false VNone initial.
Proof.
  intros headers_map.
  apply (process_line_item_whitespace (answer_records []) (fun x => x)).
  repeat constructor.
Defined.

Lemma process_line_item_no_part_cell_witness :
  let headers_map := build_headers_map 0 ["ORDER QTY"; "PART NO"] ∅ in
  exists msg,
    process_line_item (answer_records []) (fun x => x) ["5"] headers_map false VNone
      initial
    = (Raise (UnboundLocalError msg), initial).
Proof.
  intros headers_map.
  apply (process_line_item_no_part_cell (answer_records []) (fun x => x) ["5"]
           headers_map 1 false VNone initial eq_refl).
  cbn. lia.
Defined.

Lemma process_line_item_checked_witness :
  let headers_map := build_headers_map 0 ["PART NO"; "ORDER QTY"; "DESCRIPTION"] ∅ in
  let send := answer_records [VDict [("partNo", VStr "ABC123")]] in
  process_line_item send (fun x => x) ["ABC123"; "5"; "Bolt"] headers_map true VNone
    initial
  = (Ok (line_item "ABC123" (float_of_decimal 5 0) None "Bolt"),
     {| world := tt; stdout := []; sent := [exists_request "ABC123"] |}).
Proof.
  intros headers_map send.
  exact (proj2 (proj1 (process_line_item_checked send (fun x => x)
                         ["ABC123"; "5"; "Bolt"] headers_map VNone initial
                         (Some "ABC123")
                         {| lv_part_no := "ABC123"; lv_description := "Bolt";
                            lv_order_qty := float_of_decimal 5 0;
                            lv_unit_price := None |} eq_refl)
                  _ eq_refl)).
Defined.

Lemma process_line_item_flag_witness :
  let headers_map := build_headers_map 0 ["PART NO"; "ORDER QTY"] ∅ in
  process_line_item (answer_status 500) (fun x => x) ["ABC123"; "5"] headers_map false
    VNone initial
  = (Ok (line_item "ABC123" (float_of_decimal 5 0) None ""), initial).
Proof.
  intros headers_map.
  apply (process_line_item_flag (answer_records [VDict [("partNo", VStr "ABC123")]])
           (fun x => x) ["ABC123"; "5"] headers_map VNone VNone initial
           {| world := tt; stdout := []; sent := [exists_request "ABC123"] |}).
  reflexivity.
Defined.

Lemma headers_map_last_wins_witness :
  build_headers_map 0 ["Part No"; "Order Qty"; "PART NO"] ∅ !! "PART NO" = Some 2.
Proof.
  apply (proj2 (headers_map_last_wins ["Part No"; "Order Qty"; "PART NO"] "PART NO" 2)).
  split.
  - exists "PART NO". split; reflexivity.
  - intros j h' Hj Hl. destruct j as [|[|[|j]]]; try lia. discriminate Hl.
Defined.

Lemma create_payload_no_rows_witness :
  let file := {| filename := Some "po.csv";
                 rows := [["Part No"; "Order Qty"]; [""; ""]; []] |} in
  create_payload (answer_records []) (fun x => x) file required_headers true (Some VNone)
    initial
  = (Ok (VDict [("items", VList [])]), initial).
Proof.
  intros file.
  apply (proj2 (create_payload_no_rows (answer_records []) (fun x => x) file
                  required_headers true VNone initial)
           ["Part No"; "Order Qty"] [[""; ""]; []] eq_refl).
  - intros r [<-|[<-|[]]]; cbn; tauto.
  - repeat constructor.
Defined.

Lemma create_payload_first_error_witness :
  let headers := ["PART NO"; "ORDER QTY"] in
  let file := {| filename := Some "po.csv";
                 rows := [headers; ["A1"; "1"]; ["B2"; ""]; ["C3"; "3"]] |} in
  create_payload (answer_records []) (fun x => x) file required_headers false (Some VNone)
    initial
  = (Raise (HTTPException 400 "Error geting values for B2: Invalid quantity: "), initial).
Proof.
  intros headers file.
  apply (create_payload_first_error (answer_records []) (fun x => x) file headers
           [["A1"; "1"]] [["C3"; "3"]] ["B2"; ""] required_headers false VNone
           [line_item "A1" (float_of_decimal 1 0) None ""] initial initial initial _
           eq_refl).
  - intros r [<-|[<-|[]]]; cbn; tauto.
  - apply processed_cons with (st1 := initial); [reflexivity | apply processed_nil].
  - reflexivity.
  - reflexivity.
Defined.

Lemma check_required_any_order_witness :
  let headers_map := build_headers_map 0 ["Part No"; "Description"] ∅ in
  exists h, In h ["ORDER QTY"; "PART NO"] /\ map_contains headers_map h = false
            /\ HTTPException 400 "Missing ORDER QTY column"
               = HTTPException 400 ("Missing " ++ h ++ " column").
Proof.
  intros headers_map.
  exact (proj2 (check_required_any_order ["ORDER QTY"; "PART NO"] headers_map) _ eq_refl).
Defined.

Lemma process_line_item_short_row_witness :
  let headers_map := build_headers_map 0 ["PART NO"; "ORDER QTY"; "DESCRIPTION"] ∅ in
  process_line_item (answer_records []) (fun x => x) ["ABC123"; "5"] headers_map true
    VNone initial
  = (Raise (HTTPException 400 "Error geting values for ABC123: list index out of range"),
     initial).
Proof.
  intros headers_map.
  apply (process_line_item_short_row (answer_records []) (fun x => x) ["ABC123"; "5"]
           headers_map "DESCRIPTION" "ABC123" "5" 2 true VNone initial
           (or_intror eq_refl) eq_refl).
  - cbn. lia.
  - reflexivity.
  - reflexivity.
Defined.
